(** * fetch_packages.py: retry-wrapped requests and the package fetchers

    A shallow embedding of [src/fetch_packages.py].  Python values that
    travel through the fetchers are modelled by a small dynamic value
    type, exceptions by an enumeration of the classes the module meets,
    and the effects (network calls, [time.sleep], [logging], the two
    package tables) by a state monad whose state carries an event trace.

    Strings are sequences of code points below 256.  [fetch_npm_data]
    (apart from its [to_count]) and [fetch_github_stats] are not
    embedded. *)

From Stdlib Require Import ZArith List String Ascii Bool Lia.
From Stdlib Require Import DecimalString DecimalPos.
Import ListNotations.

Local Open Scope string_scope.
Local Open Scope Z_scope.
Local Open Scope list_scope.

(** ** Python values and exceptions *)

(** Exception classes the module's control flow distinguishes.  The first
    four are the ones [make_request] names in its [except] clauses;
    [UnboundLocalError] and [NameError] are kept apart although the one
    is a subclass of the other, no handler of the module names either. *)
Inductive exn : Type :=
| HttpNotFoundError     (* slumber.exceptions.HttpNotFoundError *)
| HttpServerError       (* slumber.exceptions.HttpServerError *)
| ConnectionError       (* requests.exceptions.ConnectionError *)
| ReadTimeout           (* requests.exceptions.ReadTimeout *)
| ValueError
| TypeError
| AttributeError
| KeyError
| NameError
| UnboundLocalError.

#[local] Set Warnings "-register-all".

(** Decoded JSON, which is also what record attributes hold; [JNull] is
    Python's [None]. *)
Inductive json : Type :=
| JNull
| JBool (b : bool)
| JNum (n : Z)
| JStr (s : string)
| JList (items : list json)
| JObj (fields : list (string * json)).

(** A [requests.Response]: the attributes the module reads.  [json_body]
    is what [res.json()] does: [Some j] returns [j], [None] raises
    [ValueError]. *)
Record response : Type := mkResponse {
  status_code : Z;
  content : string;
  json_body : option json
}.

(** What a network operation can return: a response object (it has a
    [status_code] attribute) or an already decoded body (slumber
    resources; no such attribute). *)
Inductive pyval : Type :=
| Response (r : response)
| Decoded (j : json).

Definition PyNone : pyval := Decoded JNull.

(** [v is None] *)
Definition is_None (v : pyval) : bool :=
  match v with
  | Decoded JNull => true
  | _ => false
  end.

(** [hasattr(res, 'status_code')] together with the attribute's value. *)
Definition status_code_attr (v : pyval) : option Z :=
  match v with
  | Response r => Some (status_code r)
  | Decoded _ => None
  end.

(** What one call of a network operation does. *)
Inductive reply : Type :=
| Gives (v : pyval)
| Throws (e : exn).

(** The operations the module hands to [make_request], with their
    arguments. *)
Inductive request : Type :=
| SearchGet (q platforms : string) (page : Z)   (* libraries_io.search.get *)
| ReadmeGet (user repo_name : string)           (* github.repos(user)(repo_name).readme.get *)
| SessionGet (url : string).                    (* default_requests_session.get *)

Inductive outcome (A : Type) : Type :=
| Returns (a : A)
| Raises (e : exn)
| OutOfFuel.
Arguments Returns {A} a.
Arguments Raises {A} e.
Arguments OutOfFuel {A}.

(** [str(n)] for an integer. *)
Definition str_of_Z (n : Z) : string := NilZero.string_of_int (Z.to_int n).

(** ** String operations *)

Definition newline : ascii := "010"%char.
Definition nbsp : ascii := "160"%char.
Definition slash : ascii := "/"%char.
Definition comma : ascii := ","%char.
Definition space : ascii := " "%char.

(** [needle in s] *)
Fixpoint contains (needle s : string) : bool :=
  String.prefix needle s ||
  match s with
  | EmptyString => false
  | String _ s' => contains needle s'
  end.

(** [s.replace(old, new)] for a one-character [old]. *)
Fixpoint replace (old : ascii) (new : string) (s : string) : string :=
  match s with
  | EmptyString => EmptyString
  | String c s' =>
      if Ascii.eqb c old then new ++ replace old new s'
      else String c (replace old new s')
  end.

(** The text before and after the first [sep], if there is one. *)
Fixpoint break_at (sep : ascii) (s : string) : option (string * string) :=
  match s with
  | EmptyString => None
  | String c s' =>
      if Ascii.eqb c sep then Some (EmptyString, s')
      else match break_at sep s' with
           | Some (a, b) => Some (String c a, b)
           | None => None
           end
  end.

(** [s.split(sep, maxsplit)] for a one-character [sep]. *)
Fixpoint split (sep : ascii) (maxsplit : nat) (s : string) : list string :=
  match maxsplit with
  | O => [s]
  | S k =>
      match break_at sep s with
      | None => [s]
      | Some (a, b) => a :: split sep k b
      end
  end.

(** What follows [p] when [s] starts with it. *)
Fixpoint strip_prefix (p s : string) : option string :=
  match p, s with
  | EmptyString, _ => Some s
  | String a p', String b s' =>
      if Ascii.eqb a b then strip_prefix p' s' else None
  | String _ _, EmptyString => None
  end.

(** The pattern [github.com] at the head of [s]: its dot stands for any
    character but a newline.  Gives what follows the match. *)
Definition match_marker (s : string) : option string :=
  match strip_prefix "github" s with
  | Some (String c s') =>
      if Ascii.eqb c newline then None else strip_prefix "com" s'
  | _ => None
  end.

(** A match of [^.*(?:github.com)] at the start of [s]: the greedy [.*]
    takes as many characters other than a newline as still leave a match
    of the marker pattern.  Gives what follows the match. *)
Fixpoint match_through_marker (s : string) : option string :=
  match s with
  | EmptyString => None
  | String c s' =>
      match (if Ascii.eqb c newline then None else match_through_marker s') with
      | Some rest => Some rest
      | None => match_marker s
      end
  end.

(** [re.sub('^.*(?:github.com)', '', url)] *)
Definition re_sub_marker (url : string) : string :=
  match match_through_marker url with
  | Some rest => rest
  | None => url
  end.

Definition is_marker (j : json) : bool :=
  match j with
  | JStr s => String.eqb s "github.com"
  | _ => false
  end.

(** ** github_info *)

(** A string takes the path the function was written for.  On other
    values the [in] test decides: [None], numbers and booleans are not
    containers, a list or a dict answers by membership, and [re.sub]
    rejects what is not a string. *)
Definition github_info (url : json) : outcome (option (string * string)) :=
  match url with
  | JStr u =>
      if contains "github.com" u then
        let u := re_sub_marker u in
        match split slash 2 u with
        | [_; user; repo_name] => Returns (Some (user, repo_name))
        | _ => Raises ValueError
        end
      else Returns None
  | JList items =>
      if existsb is_marker items then Raises TypeError else Returns None
  | JObj fields =>
      if existsb (fun kv => String.eqb (fst kv) "github.com") fields
      then Raises TypeError else Returns None
  | JNull | JNum _ | JBool _ => Raises TypeError
  end.

(** ** to_count *)

Definition code (c : ascii) : Z := Z.of_N (N_of_ascii c).

Definition is_digit (c : ascii) : bool := (48 <=? code c) && (code c <=? 57).

Definition digit_value (c : ascii) : Z := code c - 48.

(** Whitespace of a unicode string, among the code points below 256. *)
Definition is_space (c : ascii) : bool :=
  ((9 <=? code c) && (code c <=? 13)) ||
  ((28 <=? code c) && (code c <=? 32)) ||
  (code c =? 133) || (code c =? 160).

Fixpoint lstrip (s : string) : string :=
  match s with
  | EmptyString => EmptyString
  | String c s' => if is_space c then lstrip s' else s
  end.

Fixpoint rev_append (s acc : string) : string :=
  match s with
  | EmptyString => acc
  | String c s' => rev_append s' (String c acc)
  end.

Definition string_rev (s : string) : string := rev_append s EmptyString.

Definition strip (s : string) : string :=
  string_rev (lstrip (string_rev (lstrip s))).

Fixpoint digits_value (acc : Z) (s : string) : option Z :=
  match s with
  | EmptyString => Some acc
  | String c s' =>
      if is_digit c then digits_value (acc * 10 + digit_value c) s'
      else None
  end.

(** Decimal digits, at least one. *)
Definition unsigned_literal (s : string) : option Z :=
  match s with
  | EmptyString => None
  | _ => digits_value 0 s
  end.

(** [int(s)] in base ten: surrounding whitespace, an optional sign,
    digits; [ValueError] otherwise. *)
Definition int (s : string) : outcome Z :=
  let t := strip s in
  let r := match t with
           | String "-" d => option_map Z.opp (unsigned_literal d)
           | String "+" d => unsigned_literal d
           | _ => unsigned_literal t
           end in
  match r with
  | Some n => Returns n
  | None => Raises ValueError
  end.

(** [lambda s: int(s.replace(',', '')) if s != '' else 0] *)
Definition to_count (s : string) : outcome Z :=
  if negb (String.eqb s "") then int (replace comma "" s) else Returns 0.

(** ** base64.b64decode *)

(** [table_a2b_base64]: the value of an alphabet character; the pad
    character is in the table with value 0. *)
Definition table_a2b_base64 (c : ascii) : option Z :=
  let n := code c in
  if (65 <=? n) && (n <=? 90) then Some (n - 65)
  else if (97 <=? n) && (n <=? 122) then Some (n - 71)
  else if (48 <=? n) && (n <=? 57) then Some (n + 4)
  else if n =? 43 then Some 62
  else if n =? 47 then Some 63
  else if n =? 61 then Some 0
  else None.

Definition BASE64_PAD : ascii := "="%char.

(** [binascii_find_valid]: the [num]-th (from 0) character of [s] that is
    in the table, if any. *)
Fixpoint binascii_find_valid (s : string) (num : nat) : option ascii :=
  match s with
  | EmptyString => None
  | String c s' =>
      if (code c <=? 127) &&
         match table_a2b_base64 c with Some _ => true | None => false end
      then match num with
           | O => Some c
           | S num' => binascii_find_valid s' num'
           end
      else binascii_find_valid s' num
  end.

(** The decoding loop of [binascii.a2b_base64], as CPython 2.7 has it;
    returns the bits left over and the bytes produced. *)
Fixpoint a2b_base64_loop (ascii_data : string)
    (quad_pos leftbits leftchar : Z) (bin_data : string) : Z * string :=
  match ascii_data with
  | EmptyString => (leftbits, bin_data)
  | String this_ch rest =>
      if (127 <? code this_ch) || (code this_ch =? 13) ||
         (code this_ch =? 10) || (code this_ch =? 32)
      then a2b_base64_loop rest quad_pos leftbits leftchar bin_data
      else if Ascii.eqb this_ch BASE64_PAD then
        if (quad_pos <? 2) ||
           ((quad_pos =? 2) &&
            negb match binascii_find_valid ascii_data 1 with
                 | Some c => Ascii.eqb c BASE64_PAD
                 | None => false
                 end)
        then a2b_base64_loop rest quad_pos leftbits leftchar bin_data
        else (0, bin_data)
      else
        match table_a2b_base64 this_ch with
        | None => a2b_base64_loop rest quad_pos leftbits leftchar bin_data
        | Some v =>
            let quad_pos := Z.land (quad_pos + 1) 3 in
            let leftchar := Z.lor (Z.shiftl leftchar 6) v in
            let leftbits := leftbits + 6 in
            if 8 <=? leftbits then
              let leftbits := leftbits - 8 in
              let byte := Z.land (Z.shiftr leftchar leftbits) 255 in
              let leftchar := Z.land leftchar (Z.shiftl 1 leftbits - 1) in
              a2b_base64_loop rest quad_pos leftbits leftchar
                (bin_data ++ String (ascii_of_N (Z.to_N byte)) EmptyString)
            else a2b_base64_loop rest quad_pos leftbits leftchar bin_data
        end
  end.

Fixpoint all_ascii (s : string) : bool :=
  match s with
  | EmptyString => true
  | String c s' => (code c <=? 127) && all_ascii s'
  end.

(** [base64.b64decode(s)] on a unicode string: the text is first encoded
    as ASCII ([UnicodeEncodeError], a [ValueError], when it cannot be);
    [binascii.Error] for bad padding comes out as [TypeError]. *)
Definition b64decode (s : string) : outcome string :=
  if all_ascii s then
    let '(leftbits, bin_data) := a2b_base64_loop s 0 0 0 EmptyString in
    if negb (leftbits =? 0) then Raises TypeError else Returns bin_data
  else Raises ValueError.

(** ** Operations on dynamic values *)

Fixpoint assoc (key : string) (fields : list (string * json)) : option json :=
  match fields with
  | [] => None
  | (k, v) :: rest => if String.eqb k key then Some v else assoc key rest
  end.

(** [j[key]] for a string key. *)
Definition getitem (j : json) (key : string) : outcome json :=
  match j with
  | JObj fields =>
      match assoc key fields with
      | Some v => Returns v
      | None => Raises KeyError
      end
  | _ => Raises TypeError
  end.

(** [v[key]]: a response object is not subscriptable. *)
Definition py_getitem (v : pyval) (key : string) : outcome json :=
  match v with
  | Decoded j => getitem j key
  | Response _ => Raises TypeError
  end.

Fixpoint chars (s : string) : list json :=
  match s with
  | EmptyString => []
  | String c s' => JStr (String c EmptyString) :: chars s'
  end.

(** The items a [for] loop draws from a decoded value. *)
Definition json_iter (j : json) : outcome (list json) :=
  match j with
  | JList items => Returns items
  | JObj fields => Returns (map (fun kv => JStr (fst kv)) fields)
  | JStr s => Returns (chars s)
  | JNull | JBool _ | JNum _ => Raises TypeError
  end.

Fixpoint take (n : nat) (s : string) : string :=
  match n, s with
  | S n', String c s' => String c (take n' s')
  | _, _ => EmptyString
  end.

Fixpoint drop (n : nat) (s : string) : string :=
  match n, s with
  | S n', String _ s' => drop n' s'
  | _, _ => s
  end.

(** [iter_slices(s, 128)] of requests: the successive pieces of 128
    characters; [fuel] bounds their number. *)
Fixpoint iter_slices (fuel : nat) (s : string) : list json :=
  match fuel, s with
  | S fuel', String _ _ => JStr (take 128 s) :: iter_slices fuel' (drop 128 s)
  | _, _ => []
  end.

(** Iterating a response object is [iter_content(128)]: the pieces of
    its content, which are strings. *)
Definition py_iter (v : pyval) : outcome (list json) :=
  match v with
  | Decoded j => json_iter j
  | Response r => Returns (iter_slices (String.length (content r)) (content r))
  end.

(** [len(v)] *)
Definition py_len (v : pyval) : outcome Z :=
  match v with
  | Decoded (JList items) => Returns (Z.of_nat (List.length items))
  | Decoded (JObj fields) => Returns (Z.of_nat (List.length fields))
  | Decoded (JStr s) => Returns (Z.of_nat (String.length s))
  | Decoded (JNull | JBool _ | JNum _) => Raises TypeError
  | Response _ => Raises TypeError
  end.

(** [res.content] *)
Definition py_content (v : pyval) : outcome string :=
  match v with
  | Response r => Returns (content r)
  | Decoded _ => Raises AttributeError
  end.

(** [res.json()] *)
Definition py_json (v : pyval) : outcome json :=
  match v with
  | Response r =>
      match json_body r with
      | Some j => Returns j
      | None => Raises ValueError
      end
  | Decoded _ => Raises AttributeError
  end.

(** ** Log records and the event trace *)

Inductive message : Type :=
| MsgError (err_msg : string) (r : request)
| MsgWaiting (seconds : Z)
| MsgFetchingPage (page_no : Z)
| MsgNotFetchingReadme (name : string)
| MsgFetchingReadme (name : string)
| MsgPyPICount (n : Z)
| MsgPackagesFetched (n : Z)
| MsgDoneList (n : Z)
| MsgFetchingPyPIData (n : Z)
| MsgNoJSON
| MsgDoneFetching (n : Z)
| MsgDoneData (n : Z).

Inductive event : Type :=
| Call (r : request)
| Sleep (seconds : Z)
| Warn (m : message)
| Info (m : message).

Definition is_call (e : event) : bool :=
  match e with Call _ => true | _ => false end.

Definition is_sleep (e : event) : bool :=
  match e with Sleep _ => true | _ => false end.

Definition count_calls (t : list event) : nat := List.length (filter is_call t).
Definition count_sleeps (t : list event) : nat := List.length (filter is_sleep t).

(** The requests of a trace, in order. *)
Fixpoint calls_of (t : list event) : list request :=
  match t with
  | [] => []
  | Call r :: t' => r :: calls_of t'
  | _ :: t' => calls_of t'
  end.

(** ** Package records *)

Inductive model_class : Type := NPMPackage | PyPIPackage.

(** Modelled from the spec: the record kinds of [models.py], which is not
    among the sources.  The spec's data model gives the attributes;
    [name] is the natural key, every other attribute holds a dynamic
    value and is [JNull] until something assigns it.  The code-hosting
    statistics are left out, nothing embedded here touches them. *)
Record package : Type := mkPackage {
  model : model_class;
  name : string;
  repository_url : json;
  page_no : json;
  readme : json;
  description : json;
  day_download_count : json;
  week_download_count : json;
  month_download_count : json;
  dependents : json;
  dependencies : json
}.

Definition table : Type := list package.

Definition new_package (cls : model_class) (n : string) (url page : json)
    : package :=
  mkPackage cls n url page JNull JNull JNull JNull JNull JNull JNull.

Definition set_readme (v : json) (p : package) : package :=
  mkPackage (model p) (name p) (repository_url p) (page_no p) v
    (description p) (day_download_count p) (week_download_count p)
    (month_download_count p) (dependents p) (dependencies p).

Definition set_description (v : json) (p : package) : package :=
  mkPackage (model p) (name p) (repository_url p) (page_no p) (readme p)
    v (day_download_count p) (week_download_count p)
    (month_download_count p) (dependents p) (dependencies p).

Definition set_day_download_count (v : json) (p : package) : package :=
  mkPackage (model p) (name p) (repository_url p) (page_no p) (readme p)
    (description p) v (week_download_count p)
    (month_download_count p) (dependents p) (dependencies p).

Definition set_week_download_count (v : json) (p : package) : package :=
  mkPackage (model p) (name p) (repository_url p) (page_no p) (readme p)
    (description p) (day_download_count p) v
    (month_download_count p) (dependents p) (dependencies p).

Definition set_month_download_count (v : json) (p : package) : package :=
  mkPackage (model p) (name p) (repository_url p) (page_no p) (readme p)
    (description p) (day_download_count p) (week_download_count p)
    v (dependents p) (dependencies p).

Fixpoint find_by_name (n : string) (t : table) : option package :=
  match t with
  | [] => None
  | p :: t' => if String.eqb (name p) n then Some p else find_by_name n t'
  end.

(** Equality of two dynamic values. *)
Fixpoint json_eqb (a b : json) : bool :=
  match a, b with
  | JNull, JNull => true
  | JBool x, JBool y => Bool.eqb x y
  | JNum x, JNum y => Z.eqb x y
  | JStr x, JStr y => String.eqb x y
  | JList xs, JList ys =>
      (fix all_eqb (xs ys : list json) : bool :=
         match xs, ys with
         | [], [] => true
         | x :: xs', y :: ys' => json_eqb x y && all_eqb xs' ys'
         | _, _ => false
         end) xs ys
  | JObj xs, JObj ys =>
      (fix all_eqb (xs ys : list (string * json)) : bool :=
         match xs, ys with
         | [], [] => true
         | (k, x) :: xs', (l, y) :: ys' =>
             String.eqb k l && json_eqb x y && all_eqb xs' ys'
         | _, _ => false
         end) xs ys
  | _, _ => false
  end.

(** The keyword arguments of a [get_or_create] call.  Every call of the
    module passes [name]; the call of lines 83-87 passes
    [repository_url] and [page_no] too. *)
Record keywords : Type := mkKeywords {
  kw_name : string;
  kw_repository_url : option json;
  kw_page_no : option json
}.

(** [name=n] and nothing else, as at lines 157 and 205. *)
Definition name_only (n : string) : keywords := mkKeywords n None None.

(** The condition a keyword argument puts on a record: none when the
    argument is not passed, equality with the stored value when it
    is. *)
Definition agrees_on (passed : option json) (stored : json) : bool :=
  match passed with
  | None => true
  | Some v => json_eqb stored v
  end.

(** The query of [get_or_create]: one condition per keyword argument,
    all of them to be met. *)
Definition selects (kw : keywords) (p : package) : bool :=
  String.eqb (name p) (kw_name kw)
  && agrees_on (kw_repository_url kw) (repository_url p)
  && agrees_on (kw_page_no kw) (page_no p).

(** The first record the query selects. *)
Fixpoint query_get (kw : keywords) (t : table) : option package :=
  match t with
  | [] => None
  | p :: t' => if selects kw p then Some p else query_get kw t'
  end.

(** The record made from the keyword arguments; an attribute that is
    not passed is [JNull]. *)
Definition create (cls : model_class) (kw : keywords) : package :=
  new_package cls (kw_name kw)
    (match kw_repository_url kw with Some v => v | None => JNull end)
    (match kw_page_no kw with Some v => v | None => JNull end).

(** Modelled from the spec: find-or-create of the persistence gateway,
    which is not among the sources: "idempotent insert returning the
    existing record if the key already exists, else creating it".  The
    fetchers reach it as the [get_or_create] of the object-relational
    mapping, which takes the keyword arguments of the call for the key:
    it looks for a record that meets all of them and, when there is
    none, creates one from them.  The table enforces nothing of its
    own, an insert always adds a row.  Gives the record, whether it
    was created, and the table afterwards. *)
Definition find_or_create (cls : model_class) (kw : keywords) (t : table)
    : package * bool * table :=
  match query_get kw t with
  | Some p => (p, false, t)
  | None => (create cls kw, true, t ++ [create cls kw])
  end.

(** Modelled from the spec: "save mutated record" of the persistence
    gateway, which is not among the sources: the stored record of that
    name takes the attributes of [p]. *)
Fixpoint store (p : package) (t : table) : table :=
  match t with
  | [] => []
  | q :: t' =>
      if String.eqb (name q) (name p) then p :: store p t'
      else q :: store p t'
  end.

(** The model classes bound in the module's namespace: line 16 imports
    these two from [models] and the module binds no other. *)
Definition module_models : list (string * model_class) :=
  [("NPMPackage", NPMPackage); ("PyPIPackage", PyPIPackage)].

Fixpoint lookup_model (id : string) (globals : list (string * model_class))
    : option model_class :=
  match globals with
  | [] => None
  | (k, c) :: rest => if String.eqb k id then Some c else lookup_model id rest
  end.

(** ** Effects *)

Section Effects.

(** The network: an arbitrary world state and how each operation reacts
    to it. *)
Variable world : Type.
Variable endpoint : request -> world -> reply * world.

Record state : Type := mkState {
  net : world;
  trace : list event;
  npm_table : table;
  pypi_table : table
}.

Definition M (A : Type) : Type := state -> outcome A * state.

Definition ret {A} (a : A) : M A := fun s => (Returns a, s).

Definition bind {A B} (m : M A) (f : A -> M B) : M B :=
  fun s =>
    match m s with
    | (Returns a, s') => f a s'
    | (Raises e, s') => (Raises e, s')
    | (OutOfFuel, s') => (OutOfFuel, s')
    end.

Definition raise {A} (e : exn) : M A := fun s => (Raises e, s).

Definition out_of_fuel {A} : M A := fun s => (OutOfFuel, s).

(** A computation without effects. *)
Definition lift {A} (o : outcome A) : M A := fun s => (o, s).

(** [try: body except ...: handler e]; a handler re-raises what the
    [except] clauses do not name. *)
Definition try_except {A} (body : M A) (handler : exn -> M A) : M A :=
  fun s =>
    match body s with
    | (Raises e, s') => handler e s'
    | r => r
    end.

Notation "x <- c1 ;; c2" := (bind c1 (fun x => c2))
  (at level 61, c1 at next level, right associativity).
Notation "' pat <- c1 ;; c2" :=
  (bind c1 (fun x => match x with pat => c2 end))
  (at level 61, pat pattern, c1 at next level, right associativity).
Notation "c1 ;; c2" := (bind c1 (fun _ => c2))
  (at level 61, right associativity).

(** [for x in items: body x] *)
Fixpoint for_each {A} (items : list A) (body : A -> M unit) : M unit :=
  match items with
  | [] => ret tt
  | x :: rest => body x ;; for_each rest body
  end.

(** A [for] loop whose body updates local variables [vars]. *)
Fixpoint for_fold {A V} (items : list A) (vars : V) (body : A -> V -> M V)
    : M V :=
  match items with
  | [] => ret vars
  | x :: rest => vars' <- body x vars ;; for_fold rest vars' body
  end.

Definition emit (e : event) : M unit :=
  fun s => (Returns tt,
            mkState (net s) (trace s ++ [e]) (npm_table s) (pypi_table s)).

Definition logging_warn (m : message) : M unit := emit (Warn m).
Definition logging_info (m : message) : M unit := emit (Info m).
Definition time_sleep (seconds : Z) : M unit := emit (Sleep seconds).

(** One call of the operation with its arguments. *)
Definition call (req : request) : M pyval :=
  fun s =>
    let '(r, w) := endpoint req (net s) in
    let s' := mkState w (trace s ++ [Call req]) (npm_table s) (pypi_table s) in
    match r with
    | Gives v => (Returns v, s')
    | Throws e => (Raises e, s')
    end.

Definition table_of (cls : model_class) (s : state) : table :=
  match cls with
  | NPMPackage => npm_table s
  | PyPIPackage => pypi_table s
  end.

Definition with_table (cls : model_class) (t : table) (s : state) : state :=
  match cls with
  | NPMPackage => mkState (net s) (trace s) t (pypi_table s)
  | PyPIPackage => mkState (net s) (trace s) (npm_table s) t
  end.

(** [cls.get_or_create(...)] with the keyword arguments [kw]. *)
Definition get_or_create (cls : model_class) (kw : keywords)
    : M (package * bool) :=
  fun s =>
    let '(p, created, t) := find_or_create cls kw (table_of cls s) in
    (Returns (p, created), with_table cls t s).

(** [p.save()] *)
Definition save (p : package) : M unit :=
  fun s => (Returns tt, with_table (model p) (store p (table_of (model p) s)) s).

(** A global name used as a model class; [NameError] when the module
    does not bind it. *)
Definition global_model (globals : list (string * model_class)) (id : string)
    : M model_class :=
  match lookup_model id globals with
  | Some cls => ret cls
  | None => raise NameError
  end.

(** Modelled from the spec: the gateway is specified for names that are
    strings; a key of another kind has no place in its model and is
    turned down with [TypeError]. *)
Definition name_key (j : json) : M string :=
  match j with
  | JStr s => ret s
  | _ => raise TypeError
  end.

(** ** make_request *)

Definition MAX_ATTEMPTS : Z := 5.
Definition RETRY_DELAY : Z := 30.

Definition log_error (req : request) (err_msg : string) : M unit :=
  logging_warn (MsgError err_msg req).

(** The [while try_again and attempts < MAX_ATTEMPTS] loop, its variables
    as arguments. *)
Fixpoint make_request_loop (req : request) (fuel : nat)
    (try_again : bool) (attempts : Z) (res : pyval) : M pyval :=
  if try_again && (attempts <? MAX_ATTEMPTS) then
    match fuel with
    | O => out_of_fuel
    | S fuel' =>
        '(res, try_again) <-
          try_except
            (res <- call req ;;
             res <- match status_code_attr res with
                    | Some c =>
                        if negb (c =? 200)
                        then log_error req (str_of_Z c) ;; ret PyNone
                        else ret res
                    | None => ret res
                    end ;;
             ret (res, false))
            (fun e =>
               match e with
               | HttpNotFoundError =>
                   log_error req "Not Found" ;; ret (res, false)
               | HttpServerError =>
                   log_error req "Server 500" ;; ret (res, false)
               | ConnectionError =>
                   log_error req "ConnectionError" ;; ret (res, try_again)
               | ReadTimeout =>
                   log_error req "ReadTimeout" ;; ret (res, try_again)
               | _ => raise e
               end) ;;
        if try_again : bool then
          logging_warn (MsgWaiting RETRY_DELAY) ;;
          time_sleep RETRY_DELAY ;;
          make_request_loop req fuel' try_again (attempts + 1) res
        else
          make_request_loop req fuel' try_again attempts res
    end
  else ret res.

Definition make_request (req : request) : M pyval :=
  make_request_loop req (Z.to_nat MAX_ATTEMPTS) true 0 PyNone.

(** ** fetch_packagenames_from_libraryio *)

(** The [while keep_fetching] loop; [globals] is the namespace in which
    the body looks up [Package]. *)
Fixpoint fetch_packagenames_loop (globals : list (string * model_class))
    (fuel : nat) (package_count : Z) (page_no count_retrieved : Z)
    : M unit :=
  match fuel with
  | O => out_of_fuel
  | S fuel' =>
      logging_info (MsgFetchingPage page_no) ;;
      packages <- make_request (SearchGet "" "NPM" page_no) ;;
      (if negb (is_None packages) then
         items <- lift (py_iter packages) ;;
         for_each items (fun p =>
           Package <- global_model globals "Package" ;;
           n <- lift (getitem p "name") ;;
           url <- lift (getitem p "repository_url") ;;
           key <- name_key n ;;
           get_or_create Package
             (mkKeywords key (Some url) (Some (JNum page_no))) ;;
           ret tt)
       else ret tt) ;;
      len <- lift (py_len packages) ;;
      let count_retrieved := count_retrieved + len in
      let page_no := page_no + 1 in
      let keep_fetching :=
        (len >? 0) &&
        ((package_count =? -1) || (count_retrieved <? package_count)) in
      if keep_fetching
      then fetch_packagenames_loop globals fuel' package_count
             page_no count_retrieved
      else ret tt
  end.

Definition fetch_packagenames_from_libraryio (fuel : nat) (package_count : Z)
    : M unit :=
  fetch_packagenames_loop module_models fuel package_count 0 0.

(** ** fetch_github_readmes *)

Definition fetch_github_readmes (packages : list package) : M unit :=
  for_each packages (fun p =>
    gh_info <- lift (github_info (repository_url p)) ;;
    match gh_info with
    | None => logging_info (MsgNotFetchingReadme (name p))
    | Some (user, repo_name) =>
        logging_info (MsgFetchingReadme (name p)) ;;
        readme <- make_request (ReadmeGet user repo_name) ;;
        if negb (is_None readme) then
          c <- lift (py_getitem readme "content") ;;
          text <- match c with
                  | JStr b64 => lift (b64decode b64)
                  | _ => raise TypeError
                  end ;;
          save (set_readme (JStr text) p)
        else ret tt
    end).

(** ** fetch_npm_package_list *)

Definition fetch_npm_package_list : M unit :=
  res <- make_request
           (SessionGet "https://skimdb.npmjs.com/registry/_all_docs") ;;
  if negb (is_None res) then
    body <- lift (py_json res) ;;
    packages <- lift (getitem body "rows") ;;
    items <- lift (json_iter packages) ;;
    for_each items (fun p =>
      id <- lift (getitem p "id") ;;
      key <- name_key id ;;
      get_or_create NPMPackage (name_only key) ;;
      ret tt)
  else ret tt.

(** ** fetch_pypi_package_list *)

Section Catalog.

(** The HTML parser, an outside collaborator: the first table of a
    page, if it has one, as the list of its rows, each with the text of
    its first link, if it has one. *)
Variable catalog_rows : string -> option (list (option string)).

Definition fetch_pypi_package_list : M unit :=
  res <- make_request
           (SessionGet "https://pypi.python.org/pypi?%3Aaction=index") ;;
  page <- lift (py_content res) ;;
  match catalog_rows page with
  | None => raise AttributeError
  | Some all_rows =>
      logging_info (MsgPyPICount (Z.of_nat (List.length all_rows) - 1)) ;;
      num_fetched <-
        for_fold all_rows 0 (fun row num_fetched =>
          match row with
          | Some link_text =>
              let package_name := replace nbsp " " link_text in
              get_or_create PyPIPackage (name_only package_name) ;;
              let num_fetched := num_fetched + 1 in
              (if num_fetched mod 10 =? 0
               then logging_info (MsgPackagesFetched num_fetched)
               else ret tt) ;;
              ret num_fetched
          | None => ret num_fetched
          end) ;;
      logging_info (MsgDoneList num_fetched)
  end.

End Catalog.

(** ** fetch_pypi_data *)

(** The loop's local variables: [package_json] is unbound until a
    response has been decoded, and keeps its value from one package to
    the next. *)
Definition fetch_pypi_data (packages : list package) : M unit :=
  logging_info (MsgFetchingPyPIData (Z.of_nat (List.length packages))) ;;
  '(_, num_fetched) <-
    for_fold packages (@None json, 0) (fun p '(package_json, num_fetched) =>
      let formatted_name := replace nbsp "/" (replace space "/" (name p)) in
      res <- make_request
               (SessionGet ("https://pypi.python.org/pypi/"
                            ++ formatted_name ++ "/json")) ;;
      if negb (is_None res) then
        package_json <-
          try_except
            (j <- lift (py_json res) ;; ret (Some j))
            (fun e =>
               match e with
               | ValueError => logging_warn MsgNoJSON ;; ret package_json
               | _ => raise e
               end) ;;
        package_json' <- match package_json with
                         | Some j => ret j
                         | None => raise UnboundLocalError
                         end ;;
        package_info <- lift (getitem package_json' "info") ;;
        download_info <- lift (getitem package_info "downloads") ;;
        last_day <- lift (getitem download_info "last_day") ;;
        let p := set_day_download_count last_day p in
        last_week <- lift (getitem download_info "last_week") ;;
        let p := set_week_download_count last_week p in
        last_month <- lift (getitem download_info "last_month") ;;
        let p := set_month_download_count last_month p in
        summary <- lift (getitem package_info "summary") ;;
        let p := set_description summary p in
        descr <- lift (getitem package_info "description") ;;
        let p := set_readme descr p in
        save p ;;
        let num_fetched := num_fetched + 1 in
        (if num_fetched mod 10 =? 0
         then logging_info (MsgDoneFetching num_fetched)
         else ret tt) ;;
        ret (package_json, num_fetched)
      else ret (package_json, num_fetched)) ;;
  logging_info (MsgDoneData num_fetched).

(** The replies of [n] successive calls of an operation, from a given
    world. *)
Fixpoint replies (req : request) (n : nat) (w : world) : list reply :=
  match n with
  | O => []
  | S k => let '(r, w') := endpoint req w in r :: replies req k w'
  end.

End Effects.

Arguments mkState {world}.
Arguments net {world}.
Arguments trace {world}.
Arguments npm_table {world}.
Arguments pypi_table {world}.
Arguments ret {world A}.
Arguments make_request {world}.
Arguments make_request_loop {world}.
Arguments fetch_packagenames_loop {world}.
Arguments fetch_packagenames_from_libraryio {world}.
Arguments fetch_github_readmes {world}.
Arguments fetch_npm_package_list {world}.
Arguments fetch_pypi_package_list {world}.
Arguments fetch_pypi_data {world}.
Arguments replies {world}.
Arguments get_or_create {world}.
Arguments table_of {world}.
Arguments with_table {world}.
Arguments save {world}.

Definition transient (r : reply) : bool :=
  match r with
  | Throws ConnectionError | Throws ReadTimeout => true
  | _ => false
  end.

(** ** Scripted networks

    A world that is a list of replies still to come; every call takes
    the next one, and a call on the empty script fails to connect. *)
Definition script : Type := list reply.

Definition play (_ : request) (w : script) : reply * script :=
  match w with
  | [] => (Throws ConnectionError, [])
  | r :: w' => (r, w')
  end.

Definition start (w : script) (npm pypi : table) : state script :=
  mkState w [] npm pypi.

(** ** Example data *)

Definition search_item (n url : string) : json :=
  JObj [("name", JStr n); ("repository_url", JStr url)].

(** A search endpoint with two pages: two items on page 0, none on
    page 1. *)
Definition two_pages : script :=
  [Gives (Decoded (JList [search_item "left-pad" "https://github.com/a/left-pad";
                          search_item "lodash" "https://github.com/b/lodash"]));
   Gives (Decoded (JList []))].

Definition pypi_json (summary body : string) (day week month : Z) : json :=
  JObj [("info",
         JObj [("downloads",
                JObj [("last_day", JNum day); ("last_week", JNum week);
                      ("last_month", JNum month)]);
               ("summary", JStr summary);
               ("description", JStr body)])].

Definition first_package : package :=
  new_package PyPIPackage "first" JNull JNull.

Definition second_package : package :=
  new_package PyPIPackage "second" JNull JNull.

(** A response with status 200 whose body is not JSON. *)
Definition not_json : response := mkResponse 200 "<html>" None.

Definition first_json : response :=
  mkResponse 200 "{...}"
    (Some (pypi_json "summary of first" "readme of first" 1 7 30)).

(** A detail fetch over two packages: the first response decodes, the
    second does not. *)
Definition stale_json_run : outcome unit * state script :=
  fetch_pypi_data play [first_package; second_package]
    (start [Gives (Response first_json); Gives (Response not_json)]
       [] [first_package; second_package]).

(** A readme fetch for a record whose URL points at a repository. *)
Definition hosted_package : package :=
  new_package NPMPackage "bar" (JStr "https://github.com/foo/bar") JNull.

(** ** Predicates for the statements *)

(** [c in s] for a character. *)
Fixpoint has_char (c : ascii) (s : string) : bool :=
  match s with
  | EmptyString => false
  | String d s' => Ascii.eqb d c || has_char c s'
  end.

(** Some text of [s] matches the pattern [github.com], with no newline
    before it. *)
Definition marker_match_in (s : string) : Prop :=
  exists x c y,
    s = (x ++ "github" ++ String c ("com" ++ y))%string /\
    has_char newline x = false /\ c <> newline.

Fixpoint all_digits (s : string) : bool :=
  match s with
  | EmptyString => true
  | String c s' => is_digit c && all_digits s'
  end.

(** The state after some more events and with another world. *)
Definition advanced {world} (w : world) (t : list event) (s : state world)
    : state world :=
  mkState w (trace s ++ t) (npm_table s) (pypi_table s).

(** What [make_request] writes in the log for an exception it names. *)
Definition error_name (e : exn) : string :=
  match e with
  | ConnectionError => "ConnectionError"
  | ReadTimeout => "ReadTimeout"
  | HttpNotFoundError => "Not Found"
  | HttpServerError => "Server 500"
  | _ => ""
  end.

(** The events of one failed attempt that is followed by a pause. *)
Definition retry_events (req : request) (e : exn) : list event :=
  [Call req; Warn (MsgError (error_name e) req);
   Warn (MsgWaiting RETRY_DELAY); Sleep RETRY_DELAY].

(** A value the executor hands back as it is: no status code, or 200. *)
Definition accepted (v : pyval) : bool :=
  match status_code_attr v with
  | Some c => c =? 200
  | None => true
  end.

(** ** Further definitions for the statements *)

(** The world after [n] successive calls of an operation. *)
Fixpoint world_after {world} (endpoint : request -> world -> reply * world)
    (req : request) (n : nat) (w : world) : world :=
  match n with
  | O => w
  | S k => world_after endpoint req k (snd (endpoint req w))
  end.

(** The exception classes [make_request] names in an [except] clause. *)
Definition handled (e : exn) : bool :=
  match e with
  | HttpNotFoundError | HttpServerError | ConnectionError | ReadTimeout => true
  | _ => false
  end.

(** The two classes after which [make_request] does not try again. *)
Definition fatal (e : exn) : bool :=
  match e with
  | HttpNotFoundError | HttpServerError => true
  | _ => false
  end.

(** The number of occurrences of a character. *)
Fixpoint count_char (c : ascii) (s : string) : nat :=
  match s with
  | EmptyString => O
  | String d s' => (if Ascii.eqb d c then 1 else 0) + count_char c s'
  end.

(** All characters of [s] are [c]. *)
Fixpoint only_char (c : ascii) (s : string) : bool :=
  match s with
  | EmptyString => true
  | String d s' => Ascii.eqb d c && only_char c s'
  end.

(** Carriage return, line feed and space: the characters the decoding
    loop passes over before anything else. *)
Definition b64_blank (c : ascii) : bool :=
  (code c =? 13) || (code c =? 10) || (code c =? 32).

(** A network that answers every request with status 503. *)
Definition refuse (_ : request) (w : unit) : reply * unit :=
  (Gives (Response (mkResponse 503 "" None)), w).

(** The record [fetch_pypi_data] saves for [p] from what it reads in the
    decoded response. *)
Definition with_pypi_details (last_day last_week last_month summary descr : json)
    (p : package) : package :=
  mkPackage (model p) (name p) (repository_url p) (page_no p)
    descr summary last_day last_week last_month
    (dependents p) (dependencies p).

(** The URL of the detail request for a record. *)
Definition pypi_url (p : package) : string :=
  "https://pypi.python.org/pypi/"
  ++ replace nbsp "/" (replace space "/" (name p)) ++ "/json".

(** The table after find-or-create of a record with only a name. *)
Definition add_name (cls : model_class) (t : table) (n : string) : table :=
  snd (find_or_create cls (name_only n) t).

(** The names the catalog fetch reads from the rows of a page: the text
    of each row's link, its non-breaking spaces made spaces. *)
Definition linked_names (rows : list (option string)) : list string :=
  flat_map (fun row => match row with
                       | Some link_text => [replace nbsp " " link_text]
                       | None => []
                       end) rows.

Definition index_url : string := "https://pypi.python.org/pypi?%3Aaction=index".

(** A catalog with a header row and two packages, the first with a
    non-breaking space in its name. *)
Definition sample_catalog (_ : string) : option (list (option string)) :=
  Some [None; Some (String "a" (String nbsp "b")); Some "c"].

Definition catalog_page : response := mkResponse 200 "<table>" None.

Definition registry_url : string :=
  "https://skimdb.npmjs.com/registry/_all_docs".

(** A record whose URL points elsewhere, and one whose URL names an
    owner but no repository. *)
Definition unhosted_package : package :=
  new_package NPMPackage "elsewhere" (JStr "https://example.com/x") JNull.

Definition ownerless_package : package :=
  new_package NPMPackage "short" (JStr "https://github.com/foo") JNull.

Definition registry_listing : response :=
  mkResponse 200 "{...}"
    (Some (JObj [("rows", JList [JObj [("id", JStr "left-pad")];
                                 JObj [("id", JStr "lodash")];
                                 JObj [("id", JStr "left-pad")]])])).

(** Every pause of a trace lasts [RETRY_DELAY] seconds. *)
Definition pauses_are_fixed (t : list event) : Prop :=
  forall d, In (Sleep d) t -> d = RETRY_DELAY.

(** * Properties *)

(** ** The request executor *)

Section MakeRequest.

Variable world : Type.
Variable endpoint : request -> world -> reply * world.

Lemma advanced_advanced (w1 : world) t1 w2 t2 (s : state world) :
  advanced w2 t2 (advanced w1 t1 s) = advanced w2 (t1 ++ t2) s.
Proof. unfold advanced; simpl. now rewrite app_assoc. Qed.

Lemma advanced_nil (s : state world) : advanced (net s) [] s = s.
Proof. destruct s; unfold advanced; simpl. now rewrite app_nil_r. Qed.

Lemma transient_inv r :
  transient r = true -> r = Throws ConnectionError \/ r = Throws ReadTimeout.
Proof.
  destruct r as [v | e]; simpl; try discriminate.
  destruct e; simpl; try discriminate; auto.
Qed.

(** One turn of the loop on a transient error: the error is logged, the
    loop pauses and counts the attempt. *)
Lemma loop_transient_step req fuel attempts res (s : state world) r w :
  attempts < MAX_ATTEMPTS ->
  endpoint req (net s) = (r, w) ->
  transient r = true ->
  exists e,
    r = Throws e /\
    make_request_loop endpoint req (S fuel) true attempts res s =
    make_request_loop endpoint req fuel true (attempts + 1) res
      (advanced w (retry_events req e) s).
Proof.
  intros Hlt Hep Htr.
  apply Z.ltb_lt in Hlt.
  destruct (transient_inv _ Htr) as [-> | ->];
    eexists; (split; [reflexivity |]);
    simpl; rewrite Hlt; simpl;
    unfold bind, try_except, call; rewrite Hep; simpl;
    unfold advanced, retry_events; simpl;
    repeat rewrite <- app_assoc; reflexivity.
Qed.

Lemma loop_accepted_step req fuel attempts res (s : state world) v w :
  attempts < MAX_ATTEMPTS ->
  endpoint req (net s) = (Gives v, w) ->
  accepted v = true ->
  make_request_loop endpoint req (S fuel) true attempts res s =
  (Returns v, advanced w [Call req] s).
Proof.
  intros Hlt Hep Hacc.
  apply Z.ltb_lt in Hlt.
  cbn [make_request_loop]. rewrite Hlt. cbn [andb].
  unfold bind at 1, try_except, bind at 1, call. rewrite Hep. cbn.
  unfold accepted in Hacc.
  destruct (status_code_attr v) as [c |]; [rewrite Hacc |];
    destruct fuel; reflexivity.
Qed.

Lemma loop_rejected_step req fuel attempts res (s : state world) r w :
  attempts < MAX_ATTEMPTS ->
  endpoint req (net s) = (Gives (Response r), w) ->
  status_code r <> 200 ->
  make_request_loop endpoint req (S fuel) true attempts res s =
  (Returns PyNone,
   advanced w [Call req; Warn (MsgError (str_of_Z (status_code r)) req)] s).
Proof.
  intros Hlt Hep Hne.
  apply Z.ltb_lt in Hlt. apply Z.eqb_neq in Hne.
  cbn [make_request_loop]. rewrite Hlt. cbn [andb].
  unfold bind at 1, try_except, bind at 1, call. rewrite Hep. cbn.
  rewrite Hne. cbn.
  unfold advanced; simpl. rewrite <- app_assoc.
  destruct fuel; reflexivity.
Qed.

Lemma count_calls_app t1 t2 :
  count_calls (t1 ++ t2) = (count_calls t1 + count_calls t2)%nat.
Proof. unfold count_calls. now rewrite filter_app, length_app. Qed.

Lemma count_sleeps_app t1 t2 :
  count_sleeps (t1 ++ t2) = (count_sleeps t1 + count_sleeps t2)%nat.
Proof. unfold count_sleeps. now rewrite filter_app, length_app. Qed.

Lemma calls_of_app t1 t2 : calls_of (t1 ++ t2) = calls_of t1 ++ calls_of t2.
Proof.
  induction t1 as [| [r | d | m | m] t1 IH]; simpl; auto.
  now rewrite IH.
Qed.

Lemma retries_calls req es :
  calls_of (flat_map (retry_events req) es) = repeat req (List.length es).
Proof. induction es as [| e es IH]; simpl; [| rewrite IH]; reflexivity. Qed.

Lemma retries_count_calls req es :
  count_calls (flat_map (retry_events req) es) = List.length es.
Proof.
  induction es as [| e es IH]; [reflexivity |].
  change (flat_map (retry_events req) (e :: es))
    with (retry_events req e ++ flat_map (retry_events req) es).
  rewrite count_calls_app, IH. reflexivity.
Qed.

Lemma retries_count_sleeps req es :
  count_sleeps (flat_map (retry_events req) es) = List.length es.
Proof.
  induction es as [| e es IH]; [reflexivity |].
  change (flat_map (retry_events req) (e :: es))
    with (retry_events req e ++ flat_map (retry_events req) es).
  rewrite count_sleeps_app, IH. reflexivity.
Qed.

(** Every attempt from [attempts] up to the last fails with a transient
    error: the loop makes them all, pauses after each one, and gives
    back the [res] it started with. *)
Lemma loop_all_transient req n :
  forall fuel attempts res (s : state world),
    attempts + Z.of_nat n = MAX_ATTEMPTS ->
    (n <= fuel)%nat ->
    Forall (fun r => transient r = true) (replies endpoint req n (net s)) ->
    exists w es,
      make_request_loop endpoint req fuel true attempts res s =
        (Returns res, advanced w (flat_map (retry_events req) es) s) /\
      List.length es = n.
Proof.
  induction n as [| n IH]; intros fuel attempts res s Hatt Hfuel Hall.
  - exists (net s), [].
    simpl flat_map. rewrite advanced_nil.
    assert (Hge : (attempts <? MAX_ATTEMPTS) = false) by (apply Z.ltb_ge; lia).
    destruct fuel; simpl; rewrite Hge; simpl; split; reflexivity.
  - destruct fuel as [| fuel]; [lia |].
    simpl replies in Hall.
    destruct (endpoint req (net s)) as [r w] eqn:Hep.
    inversion Hall as [| ? ? Hr Hrest]; subst.
    destruct (loop_transient_step req fuel attempts res s r w)
      as (e & -> & Hstep); [lia | assumption | assumption |].
    rewrite Hstep.
    destruct (IH fuel (attempts + 1) res (advanced w (retry_events req e) s))
      as (w' & es & Hrun & Hlen); [lia | lia | exact Hrest |].
    exists w', (e :: es).
    rewrite Hrun, advanced_advanced.
    split; [reflexivity | simpl; now rewrite Hlen].
Qed.

(** Transient errors on the first [length fails] attempts, then a value
    the executor accepts: it is returned, after one pause per failure. *)
Lemma loop_transient_then_accepted req fails :
  forall fuel attempts res (s : state world) v,
    attempts + Z.of_nat (List.length fails) < MAX_ATTEMPTS ->
    (List.length fails <= fuel)%nat ->
    replies endpoint req (S (List.length fails)) (net s) = fails ++ [Gives v] ->
    Forall (fun r => transient r = true) fails ->
    accepted v = true ->
    exists w es,
      make_request_loop endpoint req (S fuel) true attempts res s =
        (Returns v,
         advanced w (flat_map (retry_events req) es ++ [Call req]) s) /\
      List.length es = List.length fails.
Proof.
  induction fails as [| r fails IH];
    intros fuel attempts res s v Hatt Hfuel Hrep Hall Hacc.
  - simpl in Hrep.
    destruct (endpoint req (net s)) as [r w] eqn:Hep.
    injection Hrep as ->.
    exists w, [].
    rewrite (loop_accepted_step req fuel attempts res s v w); auto.
    simpl in Hatt. lia.
  - simpl List.length in *.
    remember (S (List.length fails)) as m eqn:Hm.
    simpl replies in Hrep.
    destruct (endpoint req (net s)) as [r0 w] eqn:Hep.
    injection Hrep as -> Hrep.
    inversion Hall as [| ? ? Hr Hrest]; subst.
    destruct fuel as [| fuel]; [lia |].
    destruct (loop_transient_step req (S fuel) attempts res s r w)
      as (e & -> & Hstep); [lia | assumption | assumption |].
    rewrite Hstep.
    destruct (IH fuel (attempts + 1) res
                 (advanced w (retry_events req e) s) v)
      as (w' & es & Hrun & Hlen);
      [lia | lia | exact Hrep | exact Hrest | exact Hacc |].
    exists w', (e :: es).
    rewrite Hrun, advanced_advanced.
    split; [reflexivity | simpl; now rewrite Hlen].
Qed.

(** C1: when each of the first five attempts of an operation raises a
    connection failure or a read timeout, [make_request] returns [None]
    after exactly five attempts.  It does not pause four times, as the
    claim has it, but five: the last pause follows the fifth failure, and
    no attempt comes after it. *)
Theorem make_request_gives_up_after_five_pauses req (s : state world) :
  Forall (fun r => transient r = true) (replies endpoint req 5 (net s)) ->
  exists w t,
    make_request endpoint req s = (Returns PyNone, advanced w t s) /\
    calls_of t = [req; req; req; req; req] /\
    count_calls t = 5%nat /\
    count_sleeps t = 5%nat /\
    last t (Call req) = Sleep RETRY_DELAY.
Proof.
  intros Hall.
  destruct (loop_all_transient req 5 5 0 PyNone s) as (w & es & Hrun & Hlen);
    [reflexivity | lia | exact Hall |].
  exists w, (flat_map (retry_events req) es).
  unfold make_request. change (Z.to_nat MAX_ATTEMPTS) with 5%nat.
  rewrite Hrun, retries_calls, retries_count_calls, retries_count_sleeps, Hlen.
  repeat split.
  do 5 (destruct es as [| ? es]; [discriminate Hlen |]).
  destruct es; [reflexivity | discriminate Hlen].
Qed.

(** C5: an operation that returns a response object whose status code
    is not 200 is called once; [make_request] logs the status and returns
    [None], without a retry and without a pause. *)
Theorem make_request_non_200_is_not_retried req (s : state world) resp w :
  endpoint req (net s) = (Gives (Response resp), w) ->
  status_code resp <> 200 ->
  let t := [Call req; Warn (MsgError (str_of_Z (status_code resp)) req)] in
  make_request endpoint req s = (Returns PyNone, advanced w t s) /\
  count_calls t = 1%nat /\
  count_sleeps t = 0%nat.
Proof.
  intros Hep Hne t.
  split; [| split; reflexivity].
  unfold make_request. change (Z.to_nat MAX_ATTEMPTS) with 5%nat.
  apply loop_rejected_step; [reflexivity | assumption | assumption].
Qed.

(** C6: transient errors on the first four attempts and a response with
    status 200 on the fifth: [make_request] returns that response, after
    five attempts and exactly four pauses. *)
Theorem make_request_succeeds_on_fifth_attempt
    req (s : state world) r1 r2 r3 r4 resp :
  replies endpoint req 5 (net s) = [r1; r2; r3; r4; Gives (Response resp)] ->
  transient r1 = true -> transient r2 = true ->
  transient r3 = true -> transient r4 = true ->
  status_code resp = 200 ->
  exists w t,
    make_request endpoint req s = (Returns (Response resp), advanced w t s) /\
    calls_of t = [req; req; req; req; req] /\
    count_calls t = 5%nat /\
    count_sleeps t = 4%nat.
Proof.
  intros Hrep H1 H2 H3 H4 H200.
  destruct (loop_transient_then_accepted req [r1; r2; r3; r4] 4 0 PyNone s
              (Response resp))
    as (w & es & Hrun & Hlen).
  - reflexivity.
  - simpl; lia.
  - exact Hrep.
  - repeat constructor; assumption.
  - unfold accepted; simpl. now apply Z.eqb_eq.
  - exists w, (flat_map (retry_events req) es ++ [Call req]).
    unfold make_request. change (Z.to_nat MAX_ATTEMPTS) with 5%nat.
    rewrite Hrun, calls_of_app, count_calls_app, count_sleeps_app,
      retries_calls, retries_count_calls, retries_count_sleeps, Hlen.
    repeat split.
Qed.

End MakeRequest.

(** The three theorems at work on scripted networks. *)

Lemma make_request_gives_up_after_five_pauses_witness :
  exists w t,
    make_request play (SessionGet "u")
      (start [Throws ConnectionError; Throws ReadTimeout;
              Throws ConnectionError; Throws ReadTimeout;
              Throws ConnectionError] [] []) =
      (Returns PyNone,
       advanced w t
         (start [Throws ConnectionError; Throws ReadTimeout;
                 Throws ConnectionError; Throws ReadTimeout;
                 Throws ConnectionError] [] [])) /\
    calls_of t = repeat (SessionGet "u") 5 /\
    count_calls t = 5%nat /\
    count_sleeps t = 5%nat /\
    last t (Call (SessionGet "u")) = Sleep RETRY_DELAY.
Proof.
  apply (make_request_gives_up_after_five_pauses script play).
  simpl. repeat constructor.
Defined.

Lemma make_request_non_200_is_not_retried_witness :
  make_request play (SessionGet "u")
    (start [Gives (Response (mkResponse 404 "" None))] [] []) =
    (Returns PyNone,
     advanced []
       [Call (SessionGet "u"); Warn (MsgError "404" (SessionGet "u"))]
       (start [Gives (Response (mkResponse 404 "" None))] [] [])).
Proof.
  apply (make_request_non_200_is_not_retried script play (SessionGet "u")
           (start [Gives (Response (mkResponse 404 "" None))] [] [])
           (mkResponse 404 "" None) []).
  - reflexivity.
  - discriminate.
Defined.

Lemma make_request_succeeds_on_fifth_attempt_witness :
  exists w t,
    make_request play (SessionGet "u")
      (start [Throws ConnectionError; Throws ConnectionError;
              Throws ReadTimeout; Throws ReadTimeout;
              Gives (Response (mkResponse 200 "ok" None))] [] []) =
      (Returns (Response (mkResponse 200 "ok" None)),
       advanced w t
         (start [Throws ConnectionError; Throws ConnectionError;
                 Throws ReadTimeout; Throws ReadTimeout;
                 Gives (Response (mkResponse 200 "ok" None))] [] [])) /\
    calls_of t = repeat (SessionGet "u") 5 /\
    count_calls t = 5%nat /\
    count_sleeps t = 4%nat.
Proof.
  apply (make_request_succeeds_on_fifth_attempt script play (SessionGet "u")
           _ (Throws ConnectionError) (Throws ConnectionError)
           (Throws ReadTimeout) (Throws ReadTimeout));
    reflexivity.
Defined.

(** ** Strings *)

Local Open Scope string_scope.

Lemma strip_prefix_app p r : strip_prefix p (p ++ r) = Some r.
Proof.
  induction p as [| a p IH]; simpl; [reflexivity |].
  now rewrite Ascii.eqb_refl.
Qed.

Lemma strip_prefix_inv p : forall s r, strip_prefix p s = Some r -> s = p ++ r.
Proof.
  induction p as [| a p IH]; simpl; intros s r H.
  - now injection H.
  - destruct s as [| b s]; [discriminate |].
    destruct (Ascii.eqb a b) eqn:E; [| discriminate].
    apply Ascii.eqb_eq in E. subst b. now rewrite (IH _ _ H).
Qed.

Lemma match_marker_inv s r :
  match_marker s = Some r ->
  exists c, s = ("github" ++ String c ("com" ++ r))%string /\ c <> newline.
Proof.
  unfold match_marker. intros H.
  destruct (strip_prefix "github" s) as [[| c s'] |] eqn:E; try discriminate.
  destruct (Ascii.eqb c newline) eqn:Ec; [discriminate |].
  apply strip_prefix_inv in E. apply strip_prefix_inv in H. subst.
  exists c. split; [reflexivity |]. now apply Ascii.eqb_neq.
Qed.

Lemma match_marker_app c r :
  c <> newline -> match_marker ("github" ++ String c ("com" ++ r)) = Some r.
Proof.
  intros Hc. apply Ascii.eqb_neq in Hc.
  unfold match_marker. rewrite strip_prefix_app, Hc.
  apply strip_prefix_app.
Qed.

(** A match found by [match_through_marker] is a match the predicate
    sees. *)
Lemma match_through_marker_inv s :
  forall r, match_through_marker s = Some r ->
  exists x c,
    s = (x ++ "github" ++ String c ("com" ++ r))%string /\
    has_char newline x = false /\ c <> newline.
Proof.
  induction s as [| a s IH]; simpl; intros r H; [discriminate |].
  destruct (Ascii.eqb a newline) eqn:Ea.
  - destruct (match_marker_inv _ _ H) as (c & Hs & Hc).
    exists "", c. auto.
  - destruct (match_through_marker s) as [r' |] eqn:E.
    + injection H as ->.
      destruct (IH r eq_refl) as (x & c & Hs & Hx & Hc).
      exists (String a x), c. simpl. rewrite Ea, Hx, Hs. auto.
    + destruct (match_marker_inv _ _ H) as (c & Hs & Hc).
      exists "", c. auto.
Qed.

Lemma no_match_through_marker s :
  ~ marker_match_in s -> match_through_marker s = None.
Proof.
  intros Hno.
  destruct (match_through_marker s) as [r |] eqn:E; [| reflexivity].
  destruct (match_through_marker_inv _ _ E) as (x & c & Hs & Hx & Hc).
  elim Hno. now exists x, c, r.
Qed.

Lemma match_through_marker_cons c s :
  match_through_marker (String c s) =
  match (if Ascii.eqb c newline then None else match_through_marker s) with
  | Some rest => Some rest
  | None => match_marker (String c s)
  end.
Proof. reflexivity. Qed.

(** The greedy match goes through the last marker. *)
Lemma match_through_marker_app pre rest :
  has_char newline pre = false ->
  match_through_marker (pre ++ "github.com" ++ rest) =
  Some (match match_through_marker rest with
        | Some r => r
        | None => rest
        end).
Proof.
  induction pre as [| a pre IH]; intros Hpre.
  - cbn. destruct (match_through_marker rest); reflexivity.
  - simpl in Hpre. apply orb_false_elim in Hpre as [Ha Hpre].
    change (String a pre ++ "github.com" ++ rest)
      with (String a (pre ++ "github.com" ++ rest)).
    rewrite match_through_marker_cons, Ha, (IH Hpre). reflexivity.
Qed.

Lemma re_sub_marker_app pre rest :
  has_char newline pre = false ->
  ~ marker_match_in rest ->
  re_sub_marker (pre ++ "github.com" ++ rest) = rest.
Proof.
  intros Hpre Hno. unfold re_sub_marker.
  now rewrite (match_through_marker_app _ _ Hpre), (no_match_through_marker _ Hno).
Qed.

Lemma prefix_app p r : String.prefix p (p ++ r) = true.
Proof.
  induction p as [| a p IH]; simpl; [destruct r; reflexivity |].
  destruct (ascii_dec a a) as [_ | N]; [exact IH | now elim N].
Qed.

Lemma contains_prefix needle s :
  String.prefix needle s = true -> contains needle s = true.
Proof. intros H. destruct s; cbn [contains]; rewrite H; reflexivity. Qed.

Lemma contains_app needle pre rest :
  contains needle (pre ++ needle ++ rest) = true.
Proof.
  induction pre as [| a pre IH].
  - apply contains_prefix. exact (prefix_app needle rest).
  - change (String a pre ++ needle ++ rest)
      with (String a (pre ++ needle ++ rest)).
    cbn [contains]. rewrite IH. apply orb_true_r.
Qed.

Lemma break_at_app sep a b :
  has_char sep a = false ->
  break_at sep (a ++ String sep b) = Some (a, b).
Proof.
  induction a as [| c a IH]; simpl; intros H.
  - now rewrite Ascii.eqb_refl.
  - apply orb_false_elim in H as [Hc Ha].
    now rewrite Hc, (IH Ha).
Qed.

Lemma split_two_slashes a owner repo :
  has_char slash a = false ->
  has_char slash owner = false ->
  split slash 2 (a ++ "/" ++ owner ++ "/" ++ repo) = [a; owner; repo].
Proof.
  intros Ha Ho. simpl split.
  change ("/" ++ owner ++ "/" ++ repo) with (String slash (owner ++ "/" ++ repo)).
  rewrite (break_at_app _ _ _ Ha).
  change ("/" ++ repo) with (String slash repo).
  now rewrite (break_at_app _ _ _ Ho).
Qed.

(** C9, amended.  A URL without the marker has no code-hosting identity.
    A URL with it has one when what [re.sub] leaves has two slashes: the
    owner is the text between the first and the second, the repository
    name is all that follows the second, slashes included.  What the
    substitution leaves of [pre ++ "github.com" ++ rest] is [rest], when
    [pre] has no newline and nothing in [rest] matches the pattern
    again. *)
Theorem github_info_of_url (url : string) :
  (contains "github.com" url = false ->
   github_info (JStr url) = Returns None) /\
  (contains "github.com" url = true ->
   forall a owner repo,
     re_sub_marker url = a ++ "/" ++ owner ++ "/" ++ repo ->
     has_char slash a = false ->
     has_char slash owner = false ->
     github_info (JStr url) = Returns (Some (owner, repo))) /\
  (forall pre rest,
     url = pre ++ "github.com" ++ rest ->
     has_char newline pre = false ->
     ~ marker_match_in rest ->
     contains "github.com" url = true /\ re_sub_marker url = rest).
Proof.
  split; [| split].
  - intros H. unfold github_info. now rewrite H.
  - intros H a owner repo Hsub Ha Ho.
    unfold github_info. rewrite H, Hsub.
    now rewrite (split_two_slashes _ _ _ Ha Ho).
  - intros pre rest -> Hpre Hno. split.
    + apply contains_app.
    + now apply re_sub_marker_app.
Qed.

Lemma github_info_of_url_witness :
  github_info (JStr "https://github.com/foo/bar/tree/master") =
    Returns (Some ("foo", "bar/tree/master")) /\
  github_info (JStr "https://example.com/foo") = Returns None.
Proof.
  split.
  - apply (proj1 (proj2 (github_info_of_url
                           "https://github.com/foo/bar/tree/master"))
             eq_refl "" "foo" "bar/tree/master");
      reflexivity.
  - apply (proj1 (github_info_of_url "https://example.com/foo")).
    reflexivity.
Defined.

(** C9 as stated fails: a URL with the marker and fewer than two
    slashes after it yields no pair, the unpacking of the split raises
    [ValueError]. *)
Lemma github_info_short_url_raises :
  contains "github.com" "https://github.com/foo" = true /\
  github_info (JStr "https://github.com/foo") = Raises ValueError /\
  ~ (forall url,
       contains "github.com" url = true ->
       exists owner repo,
         github_info (JStr url) = Returns (Some (owner, repo))).
Proof.
  split; [reflexivity | split; [reflexivity |]].
  intros H.
  destruct (H "https://github.com/foo" eq_refl) as (owner & repo & E).
  discriminate E.
Qed.

(** ** The download-count parser *)

Lemma append_nil_r s : s ++ "" = s.
Proof. induction s as [| c s IH]; simpl; [| rewrite IH]; reflexivity. Qed.

Lemma digit_char c :
  is_digit c = true ->
  In c ["0"; "1"; "2"; "3"; "4"; "5"; "6"; "7"; "8"; "9"]%char.
Proof.
  destruct c as [[|] [|] [|] [|] [|] [|] [|] [|]];
    try discriminate; intros _; simpl; tauto.
Qed.

Ltac each_digit c H :=
  apply digit_char in H; simpl in H;
  repeat (destruct H as [H | H]; [subst c |]); [.. | contradiction].

Lemma digit_not_space c : is_digit c = true -> is_space c = false.
Proof. intros H. each_digit c H; reflexivity. Qed.

Lemma digit_not_comma c : is_digit c = true -> Ascii.eqb c comma = false.
Proof. intros H. each_digit c H; reflexivity. Qed.

Lemma all_digits_app a b :
  all_digits (a ++ b) = all_digits a && all_digits b.
Proof.
  induction a as [| c a IH]; simpl; [reflexivity |].
  now rewrite IH, andb_assoc.
Qed.

Lemma all_digits_rev_append s : forall acc,
  all_digits (rev_append s acc) = all_digits s && all_digits acc.
Proof.
  induction s as [| c s IH]; intros acc; simpl; [reflexivity |].
  rewrite IH. simpl.
  destruct (is_digit c), (all_digits s), (all_digits acc); reflexivity.
Qed.

Lemma rev_append_rev_append s : forall acc acc',
  rev_append (rev_append s acc) acc' = rev_append acc (s ++ acc').
Proof.
  induction s as [| c s IH]; intros acc acc'; simpl; [reflexivity |].
  now rewrite IH.
Qed.

Lemma string_rev_involutive s : string_rev (string_rev s) = s.
Proof.
  unfold string_rev. rewrite rev_append_rev_append. simpl.
  apply append_nil_r.
Qed.

Lemma lstrip_digits s : all_digits s = true -> lstrip s = s.
Proof.
  destruct s as [| c s]; simpl; [reflexivity |].
  intros H. apply andb_prop in H as [Hc _].
  now rewrite (digit_not_space _ Hc).
Qed.

Lemma strip_digits s : all_digits s = true -> strip s = s.
Proof.
  intros H. unfold strip.
  rewrite (lstrip_digits _ H), lstrip_digits, string_rev_involutive; auto.
  unfold string_rev. rewrite all_digits_rev_append, H. reflexivity.
Qed.

Lemma replace_comma_app a b :
  replace comma "" (a ++ b) = replace comma "" a ++ replace comma "" b.
Proof.
  induction a as [| c a IH]; simpl; [reflexivity |].
  destruct (Ascii.eqb c comma); simpl; now rewrite IH.
Qed.

Lemma replace_comma_digits s :
  all_digits s = true -> replace comma "" s = s.
Proof.
  induction s as [| c s IH]; simpl; [reflexivity |].
  intros H. apply andb_prop in H as [Hc Hs].
  now rewrite (digit_not_comma _ Hc), (IH Hs).
Qed.

(** Taking the separators out of the groups joined by commas leaves the
    groups' digits. *)
Lemma replace_comma_concat gs : forall g,
  all_digits g = true ->
  Forall (fun x => all_digits x = true) gs ->
  replace comma "" (String.concat "," (g :: gs)) = g ++ String.concat "" gs /\
  all_digits (g ++ String.concat "" gs) = true.
Proof.
  induction gs as [| g' gs IH]; intros g Hg Hgs.
  - simpl. rewrite append_nil_r. split; [now apply replace_comma_digits | exact Hg].
  - inversion Hgs as [| ? ? Hg' Hrest]; subst.
    destruct (IH g' Hg' Hrest) as [Hrep Hall].
    change (String.concat "," (g :: g' :: gs))
      with (g ++ String comma (String.concat "," (g' :: gs))).
    rewrite replace_comma_app, (replace_comma_digits _ Hg).
    cbn [replace]. rewrite Ascii.eqb_refl. cbn [append]. rewrite Hrep.
    assert (E : String.concat "" (g' :: gs) = g' ++ String.concat "" gs).
    { destruct gs; simpl; [now rewrite append_nil_r | reflexivity]. }
    rewrite E. split; [reflexivity |].
    now rewrite all_digits_app, Hg, Hall.
Qed.

(** The head digit of a decimal numeral weighs ten to the number of
    digits behind it. *)
Lemma of_uint_head d :
  Pos.of_uint d =
  (Unsigned.hd d * 10 ^ Unsigned.usize (Unsigned.tl d)
   + Pos.of_uint (Unsigned.tl d))%N.
Proof.
  rewrite !Unsigned.of_uint_alt.
  destruct d; simpl Unsigned.tl; simpl Unsigned.hd;
    [reflexivity | ..];
    unfold Decimal.rev at 1; simpl Decimal.revapp;
    rewrite Unsigned.of_lu_revapp; simpl Unsigned.of_lu; apply N.add_comm.
Qed.

(** [digits_value] reads a digit string as the decimal numeral it
    spells. *)
Lemma digits_value_numeral s :
  all_digits s = true ->
  exists u,
    NilEmpty.uint_of_string s = Some u /\
    Unsigned.usize u = N.of_nat (String.length s) /\
    forall acc,
      digits_value acc s =
      Some (acc * 10 ^ Z.of_nat (String.length s) + Z.of_uint u).
Proof.
  induction s as [| c s IH]; intros H.
  - exists Decimal.Nil. repeat split. intros acc. simpl. f_equal.
    change (Z.of_uint Decimal.Nil) with 0. lia.
  - simpl in H. apply andb_prop in H as [Hc Hs].
    destruct (IH Hs) as (u & Hu & Hsize & Hval).
    assert (Hstep : forall d k,
              d <> Decimal.Nil ->
              Unsigned.tl d = u -> Z.of_N (Unsigned.hd d) = k ->
              digit_value c = k ->
              Unsigned.usize d = N.of_nat (String.length (String c s)) /\
              forall acc,
                digits_value acc (String c s) =
                Some (acc * 10 ^ Z.of_nat (String.length (String c s))
                      + Z.of_uint d)).
    { intros d k Hd Htl Hhd Hk. split.
      - destruct d; [now elim Hd | ..]; simpl in Htl; subst u; simpl;
          rewrite Hsize; lia.
      - intros acc. simpl digits_value. rewrite Hc, Hval, Hk. f_equal.
        unfold Z.of_uint. rewrite (of_uint_head d), Htl.
        rewrite N2Z.inj_add, N2Z.inj_mul, N2Z.inj_pow, Hhd, Hsize.
        rewrite nat_N_Z. simpl String.length.
        rewrite Nat2Z.inj_succ, Z.pow_succ_r by lia.
        unfold Z.of_uint. change (Z.of_N 10) with 10. ring. }
    each_digit c Hc;
      eexists; (split; [simpl; rewrite Hu; reflexivity |]);
      eapply Hstep; try reflexivity; discriminate.
Qed.

Lemma int_digits s v :
  all_digits s = true -> s <> "" ->
  digits_value 0 s = Some v -> int s = Returns v.
Proof.
  intros H Hne Hv. unfold int. rewrite (strip_digits _ H).
  destruct s as [| c s]; [now elim Hne |].
  assert (Hc : is_digit c = true) by (simpl in H; now apply andb_prop in H).
  assert (E : unsigned_literal (String c s) = Some v) by exact Hv.
  each_digit c Hc; rewrite E; reflexivity.
Qed.

(** C8: [to_count] maps a digit string with thousands separators, that
    is groups of digits joined by commas, the first group not empty, to
    the integer its digits spell in base ten, "1,234" to 1234, and the
    empty string to 0. *)
Theorem to_count_thousands_separators :
  (forall g gs,
     g <> "" ->
     all_digits g = true ->
     Forall (fun x => all_digits x = true) gs ->
     exists u,
       NilEmpty.uint_of_string (g ++ String.concat "" gs) = Some u /\
       to_count (String.concat "," (g :: gs)) = Returns (Z.of_uint u)) /\
  to_count "1,234" = Returns 1234 /\
  to_count "" = Returns 0.
Proof.
  split; [| split; reflexivity].
  intros g gs Hne Hg Hgs.
  destruct (replace_comma_concat gs g Hg Hgs) as [Hrep Hall].
  destruct (digits_value_numeral _ Hall) as (u & Hu & _ & Hval).
  exists u. split; [exact Hu |].
  unfold to_count.
  assert (Hs : String.eqb (String.concat "," (g :: gs)) "" = false).
  { destruct g as [| c g]; [now elim Hne |]. destruct gs; reflexivity. }
  rewrite Hs. cbn [negb]. rewrite Hrep.
  apply int_digits; [exact Hall | | now rewrite Hval].
  destruct g; [now elim Hne | discriminate].
Qed.

Lemma to_count_thousands_separators_witness :
  exists u,
    NilEmpty.uint_of_string "12345678" = Some u /\
    to_count "12,345,678" = Returns (Z.of_uint u).
Proof.
  apply (proj1 to_count_thousands_separators "12" ["345"; "678"]).
  - discriminate.
  - reflexivity.
  - repeat constructor.
Defined.

(** ** The persistence gateway *)

Local Open Scope list_scope.
Local Open Scope Z_scope.

Lemma find_by_name_In n t p :
  find_by_name n t = Some p -> In p t /\ name p = n.
Proof.
  induction t as [| q t IH]; simpl; [discriminate |].
  destruct (String.eqb (name q) n) eqn:E.
  - intros [= ->]. apply String.eqb_eq in E. auto.
  - intros H. destruct (IH H). auto.
Qed.

Lemma In_find_by_name p t :
  In p t -> exists q, find_by_name (name p) t = Some q.
Proof.
  induction t as [| q t IH]; simpl; [contradiction |].
  intros [-> | H].
  - rewrite String.eqb_refl. eauto.
  - destruct (String.eqb (name q) (name p)); eauto.
Qed.

Lemma find_by_name_app_None n t1 t2 :
  find_by_name n t1 = None ->
  find_by_name n (t1 ++ t2) = find_by_name n t2.
Proof.
  induction t1 as [| q t1 IH]; simpl; [reflexivity |].
  destruct (String.eqb (name q) n); [discriminate | exact IH].
Qed.

Lemma find_by_name_store p t q :
  find_by_name (name p) t = Some q ->
  find_by_name (name p) (store p t) = Some p.
Proof.
  induction t as [| r t IH]; simpl; [discriminate |].
  destruct (String.eqb (name r) (name p)) eqn:E; simpl.
  - now rewrite String.eqb_refl.
  - rewrite E. exact IH.
Qed.

Lemma with_table_same {world} cls (s : state world) :
  with_table cls (table_of cls s) s = s.
Proof. destruct s, cls; reflexivity. Qed.







(** With the name for its only keyword the query is the lookup by
    name. *)
Lemma query_get_name_only n t :
  query_get (name_only n) t = find_by_name n t.
Proof.
  induction t as [| q t IH]; simpl; [reflexivity |].
  unfold selects. cbn [name_only kw_name kw_repository_url kw_page_no agrees_on].
  rewrite !andb_true_r. now rewrite IH.
Qed.

Lemma find_or_create_name_only cls n t :
  find_or_create cls (name_only n) t =
  match find_by_name n t with
  | Some p => (p, false, t)
  | None => (new_package cls n JNull JNull, true,
             t ++ [new_package cls n JNull JNull])
  end.
Proof.
  unfold find_or_create. now rewrite query_get_name_only.
Qed.

(** A name that is not in the table is selected by no query. *)
Lemma query_get_fresh_name kw t :
  find_by_name (kw_name kw) t = None -> query_get kw t = None.
Proof.
  induction t as [| q t IH]; simpl; [reflexivity |].
  unfold selects.
  destruct (String.eqb (name q) (kw_name kw)); [discriminate |].
  exact IH.
Qed.

Lemma get_or_create_selected {world} cls kw (s : state world) q :
  query_get kw (table_of cls s) = Some q ->
  get_or_create cls kw s = (Returns (q, false), s).
Proof.
  intros Hq. unfold get_or_create, find_or_create.
  now rewrite Hq, with_table_same.
Qed.

Lemma get_or_create_found {world} cls n (s : state world) q :
  find_by_name n (table_of cls s) = Some q ->
  get_or_create cls (name_only n) s = (Returns (q, false), s).
Proof.
  intros Hq. apply get_or_create_selected.
  now rewrite query_get_name_only.
Qed.

(** Names stay unique in a table that find-or-create by name alone
    extends. *)
Lemma find_or_create_NoDup cls n t :
  NoDup (map name t) ->
  let '(_, _, t') := find_or_create cls (name_only n) t in
  NoDup (map name t').
Proof.
  intros H. rewrite find_or_create_name_only.
  destruct (find_by_name n t) as [q |] eqn:E; [exact H |].
  rewrite map_app. simpl.
  apply NoDup_app; [exact H | repeat constructor; auto | ].
  intros m Hm [<- | []].
  apply in_map_iff in Hm as (q & Hq & Hin).
  destruct (In_find_by_name _ _ Hin) as (r & Hr).
  rewrite Hq, E in Hr. discriminate.
Qed.




(** ** The fetchers *)

Section Fetchers.

Variable world : Type.
Variable endpoint : request -> world -> reply * world.

Lemma make_request_accepted req (s : state world) v w :
  endpoint req (net s) = (Gives v, w) ->
  accepted v = true ->
  make_request endpoint req s = (Returns v, advanced w [Call req] s).
Proof.
  intros Hep Hacc. unfold make_request.
  change (Z.to_nat MAX_ATTEMPTS) with 5%nat.
  now apply loop_accepted_step.
Qed.

(** The executor never runs out of fuel: the attempts it has left bound
    the turns of its loop. *)
Lemma make_request_loop_terminates req fuel :
  forall try_again attempts res (s : state world),
    MAX_ATTEMPTS - attempts <= Z.of_nat fuel ->
    fst (make_request_loop endpoint req fuel try_again attempts res s)
    <> OutOfFuel.
Proof.
  induction fuel as [| fuel IH]; intros try_again attempts res s Hfuel.
  - simpl.
    assert (Hge : (attempts <? MAX_ATTEMPTS) = false) by (apply Z.ltb_ge; lia).
    rewrite Hge, andb_false_r. discriminate.
  - cbn [make_request_loop].
    destruct (try_again && (attempts <? MAX_ATTEMPTS)) eqn:G; [| discriminate].
    apply andb_prop in G as [-> _].
    unfold bind at 1, try_except, bind at 1, call.
    destruct (endpoint req (net s)) as [[v | e] w]; cbn.
    + destruct (status_code_attr v) as [c |]; cbn.
      * destruct (negb (c =? 200)); cbn;
          destruct fuel; cbn; discriminate.
      * destruct fuel; cbn; discriminate.
    + assert (Hnext : forall s',
                fst (make_request_loop endpoint req fuel true (attempts + 1)
                       res s') <> OutOfFuel)
        by (intros s'; apply IH; lia).
      destruct e; cbn; try discriminate;
        try (destruct fuel; cbn; discriminate);
        apply Hnext.
Qed.

Lemma make_request_terminates req (s : state world) :
  fst (make_request endpoint req s) <> OutOfFuel.
Proof. apply make_request_loop_terminates. reflexivity. Qed.

Lemma make_request_rejected req (s : state world) r w :
  endpoint req (net s) = (Gives (Response r), w) ->
  status_code r <> 200 ->
  make_request endpoint req s =
  (Returns PyNone,
   advanced w [Call req; Warn (MsgError (str_of_Z (status_code r)) req)] s).
Proof.
  intros Hep Hne. unfold make_request.
  change (Z.to_nat MAX_ATTEMPTS) with 5%nat.
  now apply loop_rejected_step.
Qed.

(** C10: a record whose repository URL gives a code-hosting identity,
    and a readme endpoint that returns an object whose [content] is
    "SGVsbG8=": the fetch decodes it and saves the record with "Hello"
    as its readme and its other attributes as they were, which is then
    what the table holds under its name; the readme is asked for
    once. *)
Theorem fetch_github_readmes_persists_hello
    (p : package) user repo_name fields w (s : state world) :
  github_info (repository_url p) = Returns (Some (user, repo_name)) ->
  endpoint (ReadmeGet user repo_name) (net s) =
    (Gives (Decoded (JObj fields)), w) ->
  assoc "content" fields = Some (JStr "SGVsbG8=") ->
  exists s',
    fetch_github_readmes endpoint [p] s = (Returns tt, s') /\
    table_of (model p) s' =
      store
        (mkPackage (model p) (name p) (repository_url p) (page_no p)
           (JStr "Hello") (description p) (day_download_count p)
           (week_download_count p) (month_download_count p)
           (dependents p) (dependencies p))
        (table_of (model p) s) /\
    (forall q,
       find_by_name (name p) (table_of (model p) s) = Some q ->
       find_by_name (name p) (table_of (model p) s') =
         Some
           (mkPackage (model p) (name p) (repository_url p) (page_no p)
              (JStr "Hello") (description p) (day_download_count p)
              (week_download_count p) (month_download_count p)
              (dependents p) (dependencies p))) /\
    calls_of (trace s') = calls_of (trace s) ++ [ReadmeGet user repo_name].
Proof.
  intros Hinfo Hep Hcontent.
  unfold fetch_github_readmes, for_each.
  unfold bind at 1. unfold bind at 1. unfold lift at 1. rewrite Hinfo.
  unfold bind at 1. unfold logging_info at 1, emit at 1.
  unfold bind at 1.
  rewrite (make_request_accepted (ReadmeGet user repo_name) _
             (Decoded (JObj fields)) w); [| exact Hep | reflexivity].
  cbn [is_None negb].
  unfold bind at 1. unfold lift at 1. cbn [py_getitem getitem].
  rewrite Hcontent.
  unfold bind at 1. unfold lift at 1.
  change (b64decode "SGVsbG8=") with (@Returns string "Hello").
  unfold save, ret, set_readme. cbn.
  eexists. split; [reflexivity |].
  split; [| split].
  - destruct (model p); reflexivity.
  - intros q Hq.
    match goal with
    | |- _ = Some ?saved =>
        replace (table_of (model p) _)
          with (store saved (table_of (model p) s))
          by (destruct (model p); reflexivity);
        apply (find_by_name_store saved _ q)
    end.
    exact Hq.
  - destruct (model p); cbn; rewrite !calls_of_app; cbn;
      now rewrite app_nil_r.
Qed.

(** C2: a list fetch does not skip a request without result, it stops
    with an exception.  In the paginated name fetch the guard
    [packages is not None] covers the loop over the items only, and
    [len(packages)] then raises [TypeError], on whatever page; the
    catalog fetch has no guard at all, and reading [res.content] raises
    [AttributeError]. *)
Theorem list_fetch_aborts_on_no_result :
  (forall globals fuel package_count page_no count_retrieved
          (s s' : state world),
     make_request endpoint (SearchGet "" "NPM" page_no)
       (advanced (net s) [Info (MsgFetchingPage page_no)] s) =
       (Returns PyNone, s') ->
     fetch_packagenames_loop endpoint globals (S fuel) package_count
       page_no count_retrieved s = (Raises TypeError, s')) /\
  (forall catalog_rows (s s' : state world),
     make_request endpoint
       (SessionGet "https://pypi.python.org/pypi?%3Aaction=index") s =
       (Returns PyNone, s') ->
     fetch_pypi_package_list endpoint catalog_rows s =
       (Raises AttributeError, s')).
Proof.
  split.
  - intros globals fuel package_count page_no count_retrieved s s' Hreq.
    cbn [fetch_packagenames_loop].
    unfold bind at 1. unfold logging_info at 1, emit at 1.
    unfold bind at 1.
    change (mkState (net s) (trace s ++ [Info (MsgFetchingPage page_no)])
              (npm_table s) (pypi_table s))
      with (advanced (net s) [Info (MsgFetchingPage page_no)] s).
    rewrite Hreq. reflexivity.
  - intros catalog_rows s s' Hreq.
    unfold fetch_pypi_package_list.
    unfold bind at 1. rewrite Hreq. reflexivity.
Qed.

(** C4: on a first page that holds an item the paginated name fetch
    raises [NameError] at once: its body asks for [Package], a name
    the module does not bind.  No record is created and no further
    page is requested. *)
Theorem fetch_packagenames_raises_NameError
    fuel package_count item items w (s : state world) :
  endpoint (SearchGet "" "NPM" 0) (net s) =
    (Gives (Decoded (JList (item :: items))), w) ->
  fetch_packagenames_from_libraryio endpoint (S fuel) package_count s =
  (Raises NameError,
   advanced w [Info (MsgFetchingPage 0); Call (SearchGet "" "NPM" 0)] s).
Proof.
  intros Hep.
  unfold fetch_packagenames_from_libraryio. cbn [fetch_packagenames_loop].
  unfold bind at 1. unfold logging_info at 1, emit at 1.
  unfold bind at 1.
  rewrite (make_request_accepted (SearchGet "" "NPM" 0) _
             (Decoded (JList (item :: items))) w); [| exact Hep | reflexivity].
  cbn. unfold advanced. cbn. now rewrite <- app_assoc.
Qed.

(** What the loop does once [Package] names the NPM model: with two
    items of fresh, distinct names on page 0 and none on page 1, and no
    target count or one above two, it creates the two records with page
    number 0 and requests pages 0 and 1 only. *)
Lemma fetch_packagenames_two_pages_bound
    fuel package_count n1 u1 n2 u2 f1 f2 w1 w2 (s : state world) :
  package_count = -1 \/ 2 < package_count ->
  endpoint (SearchGet "" "NPM" 0) (net s) =
    (Gives (Decoded (JList [JObj f1; JObj f2])), w1) ->
  endpoint (SearchGet "" "NPM" 1) w1 = (Gives (Decoded (JList [])), w2) ->
  assoc "name" f1 = Some (JStr n1) -> assoc "repository_url" f1 = Some u1 ->
  assoc "name" f2 = Some (JStr n2) -> assoc "repository_url" f2 = Some u2 ->
  find_by_name n1 (npm_table s) = None ->
  find_by_name n2 (npm_table s) = None ->
  n1 <> n2 ->
  fetch_packagenames_loop endpoint [("Package", NPMPackage)] (S (S fuel))
    package_count 0 0 s =
  (Returns tt,
   mkState w2
     (trace s ++ [Info (MsgFetchingPage 0); Call (SearchGet "" "NPM" 0);
                  Info (MsgFetchingPage 1); Call (SearchGet "" "NPM" 1)])
     (npm_table s ++ [new_package NPMPackage n1 u1 (JNum 0);
                      new_package NPMPackage n2 u2 (JNum 0)])
     (pypi_table s)).
Proof.
  intros Hcount Hp0 Hp1 Hn1 Hu1 Hn2 Hu2 Hf1 Hf2 Hne.
  assert (Hkeep : (package_count =? -1) || (2 <? package_count) = true).
  { destruct Hcount as [-> | H]; [reflexivity |].
    apply Z.ltb_lt in H. rewrite H. apply orb_true_r. }
  assert (Hf2' : find_by_name n2
                   (npm_table s ++ [new_package NPMPackage n1 u1 (JNum 0)])
                 = None).
  { rewrite (find_by_name_app_None _ _ _ Hf2). simpl.
    destruct (String.eqb n1 n2) eqn:E; [| reflexivity].
    apply String.eqb_eq in E. contradiction. }
  cbn [fetch_packagenames_loop].
  unfold bind at 1. unfold logging_info at 1, emit at 1.
  unfold bind at 1.
  rewrite (make_request_accepted (SearchGet "" "NPM" 0) _
             (Decoded (JList [JObj f1; JObj f2])) w1);
    [| exact Hp0 | reflexivity].
  cbn [is_None negb py_iter json_iter].
  unfold bind at 1. unfold bind at 1. unfold lift at 1.
  cbn [for_each global_model lookup_model String.eqb Ascii.eqb Bool.eqb].
  cbn [getitem]. rewrite Hn1, Hu1, Hn2, Hu2.
  unfold name_key, get_or_create, find_or_create, bind, lift, ret.
  cbn -[make_request fetch_packagenames_loop query_get create
        Z.add Z.ltb Z.eqb Z.gtb].
  rewrite (query_get_fresh_name (mkKeywords n1 (Some u1) (Some (JNum 0)))
             _ Hf1).
  unfold create.
  cbn -[make_request fetch_packagenames_loop query_get
        Z.add Z.ltb Z.eqb Z.gtb].
  rewrite (query_get_fresh_name (mkKeywords n2 (Some u2) (Some (JNum 0)))
             _ Hf2').
  cbn -[make_request fetch_packagenames_loop Z.ltb Z.eqb].
  rewrite Hkeep.
  cbn -[make_request].
  match goal with
  | |- context [make_request endpoint ?r ?st] =>
      rewrite (make_request_accepted r st (Decoded (JList [])) w2);
        [| exact Hp1 | reflexivity]
  end.
  cbn. unfold advanced. cbn.
  repeat rewrite <- app_assoc. reflexivity.
Qed.

Lemma bind_returns {A B} (m : M world A) (f : A -> M world B) s a s' :
  m s = (Returns a, s') -> bind world m f s = f a s'.
Proof. intros H. unfold bind. now rewrite H. Qed.

Lemma bind_logging_info {B} msg (f : unit -> M world B) s :
  bind world (logging_info world msg) f s =
  f tt (advanced (net s) [Info msg] s).
Proof. reflexivity. Qed.

Lemma bind_ret {A B} (a : A) (f : A -> M world B) s :
  bind world (ret a) f s = f a s.
Proof. reflexivity. Qed.

(** The catalog fetch over a page whose names are all in the table
    already: the rows are counted and logged, the tables stay as they
    were. *)
Lemma fetch_pypi_package_list_of_present_names
    catalog_rows r w rows (s : state world) :
  endpoint (SessionGet "https://pypi.python.org/pypi?%3Aaction=index") (net s)
    = (Gives (Response r), w) ->
  status_code r = 200 ->
  catalog_rows (content r) = Some rows ->
  (forall text, In (Some text) rows ->
     find_by_name (replace nbsp " " text) (pypi_table s) <> None) ->
  exists w' t,
    fetch_pypi_package_list endpoint catalog_rows s =
      (Returns tt, advanced w' t s).
Proof.
  intros Hep H200 Hrows Hpresent.
  unfold fetch_pypi_package_list.
  rewrite (bind_returns _ _ _ _ _
             (make_request_accepted _ s (Response r) w Hep
                ltac:(unfold accepted; simpl; now apply Z.eqb_eq))).
  unfold bind at 1. unfold lift at 1. cbn [py_content]. rewrite Hrows.
  rewrite bind_logging_info, advanced_advanced.
  match goal with
  | |- context [for_fold _ rows 0 ?b] => set (body := b)
  end.
  assert (Hloop : forall rs n w1 t1,
            (forall text, In (Some text) rs -> In (Some text) rows) ->
            exists n' t2,
              for_fold world rs n body (advanced w1 t1 s) =
              (Returns n', advanced w1 (t1 ++ t2) s)).
  { induction rs as [| row rs IH]; intros n w1 t1 Hsub.
    - exists n, []. now rewrite app_nil_r.
    - cbn [for_fold].
      assert (Hrow : exists n1 t2,
                body row n (advanced w1 t1 s) =
                (Returns n1, advanced w1 (t1 ++ t2) s)).
      { destruct row as [text |]; cbv beta iota delta [body].
        - assert (Hfound : find_by_name (replace nbsp " " text) (pypi_table s)
                           <> None)
            by (apply Hpresent, Hsub; now left).
          destruct (find_by_name (replace nbsp " " text) (pypi_table s))
            as [q |] eqn:Hq; [| now elim Hfound].
          rewrite (bind_returns _ _ _ _ _
                     (get_or_create_found PyPIPackage
                        (replace nbsp " " text)
                        (advanced w1 t1 s) q Hq)).
          destruct ((n + 1) mod 10 =? 0).
          + rewrite bind_logging_info, advanced_advanced.
            now exists (n + 1), [Info (MsgPackagesFetched (n + 1))].
          + rewrite bind_ret. exists (n + 1), []. now rewrite app_nil_r.
        - exists n, []. now rewrite app_nil_r. }
      destruct Hrow as (n1 & t2 & Hrow).
      rewrite (bind_returns _ _ _ _ _ Hrow).
      destruct (IH n1 w1 (t1 ++ t2)) as (n' & t3 & Hrun);
        [intros; apply Hsub; now right |].
      rewrite Hrun. exists n', (t2 ++ t3). now rewrite app_assoc. }
  destruct (Hloop rows 0 w
              ([Call (SessionGet
                        "https://pypi.python.org/pypi?%3Aaction=index")] ++
               [Info (MsgPyPICount (Z.of_nat (List.length rows) - 1))]))
    as (n' & t2 & Hrun); [auto |].
  rewrite (bind_returns _ _ _ _ _ Hrun).
  eexists w, _. unfold logging_info, emit, advanced. cbn.
  rewrite <- app_assoc. reflexivity.
Qed.

(** The registry-listing fetch, for comparison, does skip a request
    without result. *)
Lemma fetch_npm_package_list_skips_no_result (s s' : state world) :
  make_request endpoint
    (SessionGet "https://skimdb.npmjs.com/registry/_all_docs") s =
    (Returns PyNone, s') ->
  fetch_npm_package_list endpoint s = (Returns tt, s').
Proof.
  intros Hreq. unfold fetch_npm_package_list.
  unfold bind at 1. rewrite Hreq. reflexivity.
Qed.

(** C3: a response that does not decode as JSON is logged, but the
    package is not skipped.  For the first package of a batch the next
    statement reads [package_json] unbound and raises
    [UnboundLocalError], which ends the batch; after a package whose
    response did decode, the undecodable one takes the fields of that
    earlier response and is saved with them. *)
Theorem fetch_pypi_data_does_not_skip_undecodable
    (p : package) rest r w (s : state world) :
  endpoint
    (SessionGet ("https://pypi.python.org/pypi/"
                 ++ replace nbsp "/" (replace space "/" (name p)) ++ "/json"))
    (net s) = (Gives (Response r), w) ->
  status_code r = 200 ->
  json_body r = None ->
  fetch_pypi_data endpoint (p :: rest) s =
    (Raises UnboundLocalError,
     advanced w
       [Info (MsgFetchingPyPIData (Z.of_nat (List.length (p :: rest))));
        Call (SessionGet ("https://pypi.python.org/pypi/"
                          ++ replace nbsp "/" (replace space "/" (name p))
                          ++ "/json"));
        Warn MsgNoJSON] s) /\
  fst stale_json_run = Returns tt /\
  In (Warn MsgNoJSON) (trace (snd stale_json_run)) /\
  pypi_table (snd stale_json_run) =
    [mkPackage PyPIPackage "first" JNull JNull
       (JStr "readme of first") (JStr "summary of first")
       (JNum 1) (JNum 7) (JNum 30) JNull JNull;
     mkPackage PyPIPackage "second" JNull JNull
       (JStr "readme of first") (JStr "summary of first")
       (JNum 1) (JNum 7) (JNum 30) JNull JNull].
Proof.
  intros Hep H200 Hbody.
  split; [| split; [reflexivity | split; [| reflexivity]]].
  - unfold fetch_pypi_data.
    unfold bind at 1. unfold logging_info at 1, emit at 1.
    cbn [for_fold].
    unfold bind at 1. unfold bind at 1. unfold bind at 1.
    match goal with
    | |- context [make_request endpoint ?q ?st] =>
        rewrite (make_request_accepted q st (Response r) w);
          [| exact Hep | unfold accepted; simpl; now apply Z.eqb_eq]
    end.
    cbn [is_None negb].
    unfold bind at 1, try_except, bind at 1, lift at 1.
    cbn [py_json]. rewrite Hbody.
    cbn. unfold advanced. cbn.
    now rewrite <- !app_assoc.
  - vm_compute. tauto.
Qed.

End Fetchers.

(** The fetcher theorems at work on scripted networks. *)

Lemma list_fetch_aborts_on_no_result_witness :
  fetch_packagenames_from_libraryio play 1 (-1)
    (start [Throws HttpNotFoundError] [] []) =
  (Raises TypeError,
   mkState []
     [Info (MsgFetchingPage 0); Call (SearchGet "" "NPM" 0);
      Warn (MsgError "Not Found" (SearchGet "" "NPM" 0))] [] []) /\
  fetch_pypi_package_list play (fun _ => None)
    (start [Gives (Response (mkResponse 503 "" None))] [] []) =
  (Raises AttributeError,
   mkState []
     [Call (SessionGet "https://pypi.python.org/pypi?%3Aaction=index");
      Warn (MsgError "503"
              (SessionGet "https://pypi.python.org/pypi?%3Aaction=index"))]
     [] []).
Proof.
  split.
  - apply (proj1 (list_fetch_aborts_on_no_result script play)).
    reflexivity.
  - apply (proj2 (list_fetch_aborts_on_no_result script play)).
    reflexivity.
Defined.

Lemma fetch_packagenames_raises_NameError_witness :
  fetch_packagenames_from_libraryio play 2 (-1) (start two_pages [] []) =
  (Raises NameError,
   mkState [Gives (Decoded (JList []))]
     [Info (MsgFetchingPage 0); Call (SearchGet "" "NPM" 0)] [] []).
Proof.
  apply (fetch_packagenames_raises_NameError script play 1 (-1)
           (search_item "left-pad" "https://github.com/a/left-pad")
           [search_item "lodash" "https://github.com/b/lodash"]
           [Gives (Decoded (JList []))] (start two_pages [] [])).
  reflexivity.
Defined.

Lemma fetch_pypi_data_does_not_skip_undecodable_witness :
  fetch_pypi_data play [first_package; second_package]
    (start [Gives (Response not_json); Gives (Response first_json)]
       [] [first_package; second_package]) =
  (Raises UnboundLocalError,
   mkState [Gives (Response first_json)]
     [Info (MsgFetchingPyPIData 2);
      Call (SessionGet "https://pypi.python.org/pypi/first/json");
      Warn MsgNoJSON]
     [] [first_package; second_package]).
Proof.
  apply (proj1 (fetch_pypi_data_does_not_skip_undecodable script play
                  first_package [second_package] not_json
                  [Gives (Response first_json)]
                  (start [Gives (Response not_json);
                          Gives (Response first_json)]
                     [] [first_package; second_package])
                  eq_refl eq_refl eq_refl)).
Defined.

Lemma fetch_github_readmes_persists_hello_witness :
  exists s',
    fetch_github_readmes play [hosted_package]
      (start [Gives (Decoded (JObj [("content", JStr "SGVsbG8=")]))]
         [hosted_package] []) = (Returns tt, s') /\
    npm_table s' =
      [mkPackage NPMPackage "bar" (JStr "https://github.com/foo/bar") JNull
         (JStr "Hello") JNull JNull JNull JNull JNull JNull].
Proof.
  destruct (fetch_github_readmes_persists_hello script play
              hosted_package "foo" "bar" [("content", JStr "SGVsbG8=")] []
              (start [Gives (Decoded (JObj [("content", JStr "SGVsbG8=")]))]
                 [hosted_package] [])
              eq_refl eq_refl eq_refl)
    as (s' & Hrun & Htable & _).
  exists s'. split; [exact Hrun | exact Htable].
Defined.

(** The two-page scenario once [Package] is bound. *)
Example two_pages_with_Package_bound :
  fetch_packagenames_loop play [("Package", NPMPackage)] 2 (-1) 0 0
    (start two_pages [] []) =
  (Returns tt,
   mkState []
     [Info (MsgFetchingPage 0); Call (SearchGet "" "NPM" 0);
      Info (MsgFetchingPage 1); Call (SearchGet "" "NPM" 1)]
     [new_package NPMPackage "left-pad"
        (JStr "https://github.com/a/left-pad") (JNum 0);
      new_package NPMPackage "lodash"
        (JStr "https://github.com/b/lodash") (JNum 0)]
     []).
Proof. reflexivity. Qed.

(** * Further properties *)

(** ** The request executor, for every operation *)

Ltac split_all := repeat match goal with |- _ /\ _ => split end.

Ltac count_events :=
  unfold count_calls, count_sleeps, retry_events in *;
  cbn [filter is_call is_sleep List.length]; lia.

Section MakeRequestMore.

Variable world : Type.
Variable endpoint : request -> world -> reply * world.

Lemma loop_done req fuel attempts res (s : state world) :
  make_request_loop endpoint req fuel false attempts res s = (Returns res, s).
Proof. destruct fuel; reflexivity. Qed.

Lemma loop_fatal_step req fuel attempts res (s : state world) e w :
  attempts < MAX_ATTEMPTS ->
  endpoint req (net s) = (Throws e, w) ->
  fatal e = true ->
  make_request_loop endpoint req (S fuel) true attempts res s =
  (Returns res, advanced w [Call req; Warn (MsgError (error_name e) req)] s).
Proof.
  intros Hlt Hep Hf. apply Z.ltb_lt in Hlt.
  cbn [make_request_loop]. rewrite Hlt. cbn [andb].
  unfold bind at 1, try_except, bind at 1, call. rewrite Hep.
  destruct e; try discriminate Hf; cbn;
    rewrite loop_done; unfold advanced; cbn; now rewrite <- app_assoc.
Qed.

Lemma loop_unhandled_step req fuel attempts res (s : state world) e w :
  attempts < MAX_ATTEMPTS ->
  endpoint req (net s) = (Throws e, w) ->
  handled e = false ->
  make_request_loop endpoint req (S fuel) true attempts res s =
  (Raises e, advanced w [Call req] s).
Proof.
  intros Hlt Hep Hh. apply Z.ltb_lt in Hlt.
  cbn [make_request_loop]. rewrite Hlt. cbn [andb].
  unfold bind at 1, try_except, bind at 1, call. rewrite Hep.
  destruct e; try discriminate Hh; reflexivity.
Qed.

(** Transient errors on the first [n] attempts: the loop is then where
    it would be had it started with [n] more attempts counted, in the
    world after these calls, one pause per failure behind it. *)
Lemma loop_skip_transients req n :
  forall fuel attempts res (s : state world),
    attempts + Z.of_nat n <= MAX_ATTEMPTS ->
    Forall (fun r => transient r = true) (replies endpoint req n (net s)) ->
    exists es,
      List.length es = n /\
      make_request_loop endpoint req (n + fuel) true attempts res s =
      make_request_loop endpoint req fuel true (attempts + Z.of_nat n) res
        (advanced (world_after endpoint req n (net s))
           (flat_map (retry_events req) es) s).
Proof.
  induction n as [| n IH]; intros fuel attempts res s Hatt Hall.
  - exists []. split; [reflexivity |].
    cbn [flat_map world_after Nat.add Z.of_nat].
    now rewrite advanced_nil, Z.add_0_r.
  - cbn [replies] in Hall.
    destruct (endpoint req (net s)) as [r w] eqn:Hep.
    inversion Hall as [| ? ? Hr Hrest]; subst.
    destruct (loop_transient_step world endpoint req (n + fuel) attempts res
                s r w) as (e & -> & Hstep); [lia | assumption | assumption |].
    destruct (IH fuel (attempts + 1) res (advanced w (retry_events req e) s))
      as (es & Hlen & Hrun); [lia | exact Hrest |].
    exists (e :: es). split; [simpl; now rewrite Hlen |].
    change (S n + fuel)%nat with (S (n + fuel)).
    rewrite Hstep, Hrun, advanced_advanced.
    cbn [world_after]. rewrite Hep. cbn [snd flat_map advanced net].
    replace (attempts + 1 + Z.of_nat n) with (attempts + Z.of_nat (S n)) by lia.
    reflexivity.
Qed.

(** X1: transient errors on the first [n] attempts, [n] below five, and
    then a value with status 200 or without a status code: that value is
    returned as it is, after [n + 1] calls and [n] pauses; with [n = 0]
    nothing is logged. *)
Theorem make_request_returns_accepted_value
    req n v w (s : state world) :
  (n < 5)%nat ->
  Forall (fun r => transient r = true) (replies endpoint req n (net s)) ->
  endpoint req (world_after endpoint req n (net s)) = (Gives v, w) ->
  accepted v = true ->
  exists t,
    make_request endpoint req s = (Returns v, advanced w t s) /\
    count_calls t = S n /\
    count_sleeps t = n /\
    (n = O -> t = [Call req]).
Proof.
  intros Hn Hall Hep Hacc.
  destruct (loop_skip_transients req n (5 - n) 0 PyNone s)
    as (es & Hlen & Hrun); [unfold MAX_ATTEMPTS; lia | exact Hall |].
  exists (flat_map (retry_events req) es ++ [Call req]).
  unfold make_request. change (Z.to_nat MAX_ATTEMPTS) with 5%nat.
  replace 5%nat with (n + (5 - n))%nat at 1 by lia.
  rewrite Hrun.
  destruct (5 - n)%nat as [| fuel] eqn:Hfuel; [lia |].
  rewrite (loop_accepted_step world endpoint req fuel _ PyNone _ v w);
    [| unfold MAX_ATTEMPTS; lia | exact Hep | exact Hacc].
  rewrite advanced_advanced, count_calls_app, count_sleeps_app,
    retries_count_calls, retries_count_sleeps, Hlen.
  repeat split; try count_events.
  intros ->. destruct es; [reflexivity | discriminate Hlen].
Qed.

(** X2: transient errors on the first [n] attempts, [n] below five, and
    then a "not found" or a "server error": the executor logs it and
    returns [None] without trying again, after [n + 1] calls and [n]
    pauses. *)
Theorem make_request_stops_at_fatal_error
    req n e w (s : state world) :
  (n < 5)%nat ->
  Forall (fun r => transient r = true) (replies endpoint req n (net s)) ->
  endpoint req (world_after endpoint req n (net s)) = (Throws e, w) ->
  fatal e = true ->
  exists t,
    make_request endpoint req s = (Returns PyNone, advanced w t s) /\
    count_calls t = S n /\
    count_sleeps t = n /\
    last t (Call req) = Warn (MsgError (error_name e) req).
Proof.
  intros Hn Hall Hep Hf.
  destruct (loop_skip_transients req n (5 - n) 0 PyNone s)
    as (es & Hlen & Hrun); [unfold MAX_ATTEMPTS; lia | exact Hall |].
  exists (flat_map (retry_events req) es
          ++ [Call req; Warn (MsgError (error_name e) req)]).
  unfold make_request. change (Z.to_nat MAX_ATTEMPTS) with 5%nat.
  replace 5%nat with (n + (5 - n))%nat at 1 by lia.
  rewrite Hrun.
  destruct (5 - n)%nat as [| fuel] eqn:Hfuel; [lia |].
  rewrite (loop_fatal_step req fuel _ PyNone _ e w);
    [| unfold MAX_ATTEMPTS; lia | exact Hep | exact Hf].
  rewrite advanced_advanced, count_calls_app, count_sleeps_app,
    retries_count_calls, retries_count_sleeps, Hlen.
  repeat split; try count_events.
  change [Call req; Warn (MsgError (error_name e) req)]
    with ([Call req] ++ [Warn (MsgError (error_name e) req)]).
  rewrite app_assoc. apply last_last.
Qed.

(** X3: an exception that no [except] clause names leaves the executor
    at the attempt that raised it, whatever transient errors came
    before: it is neither logged nor turned into [None]. *)
Theorem make_request_lets_other_exceptions_through
    req n e w (s : state world) :
  (n < 5)%nat ->
  Forall (fun r => transient r = true) (replies endpoint req n (net s)) ->
  endpoint req (world_after endpoint req n (net s)) = (Throws e, w) ->
  handled e = false ->
  exists t,
    make_request endpoint req s = (Raises e, advanced w (t ++ [Call req]) s) /\
    count_calls t = n /\
    count_sleeps t = n.
Proof.
  intros Hn Hall Hep Hh.
  destruct (loop_skip_transients req n (5 - n) 0 PyNone s)
    as (es & Hlen & Hrun); [unfold MAX_ATTEMPTS; lia | exact Hall |].
  exists (flat_map (retry_events req) es).
  unfold make_request. change (Z.to_nat MAX_ATTEMPTS) with 5%nat.
  replace 5%nat with (n + (5 - n))%nat at 1 by lia.
  rewrite Hrun.
  destruct (5 - n)%nat as [| fuel] eqn:Hfuel; [lia |].
  rewrite (loop_unhandled_step req fuel _ PyNone _ e w);
    [| unfold MAX_ATTEMPTS; lia | exact Hep | exact Hh].
  rewrite advanced_advanced, retries_count_calls, retries_count_sleeps, Hlen.
  repeat split.
Qed.

(** X4: transient errors on the first [n] attempts, [n] below five, and
    then a response whose status is not 200: the executor logs the
    status and returns [None] without trying again, after [n + 1] calls
    and [n] pauses. *)
Theorem make_request_stops_at_bad_status
    req n r w (s : state world) :
  (n < 5)%nat ->
  Forall (fun r => transient r = true) (replies endpoint req n (net s)) ->
  endpoint req (world_after endpoint req n (net s)) = (Gives (Response r), w) ->
  status_code r <> 200 ->
  exists t,
    make_request endpoint req s = (Returns PyNone, advanced w t s) /\
    count_calls t = S n /\
    count_sleeps t = n /\
    last t (Call req) = Warn (MsgError (str_of_Z (status_code r)) req).
Proof.
  intros Hn Hall Hep Hne.
  destruct (loop_skip_transients req n (5 - n) 0 PyNone s)
    as (es & Hlen & Hrun); [unfold MAX_ATTEMPTS; lia | exact Hall |].
  exists (flat_map (retry_events req) es
          ++ [Call req; Warn (MsgError (str_of_Z (status_code r)) req)]).
  unfold make_request. change (Z.to_nat MAX_ATTEMPTS) with 5%nat.
  replace 5%nat with (n + (5 - n))%nat at 1 by lia.
  rewrite Hrun.
  destruct (5 - n)%nat as [| fuel] eqn:Hfuel; [lia |].
  rewrite (loop_rejected_step world endpoint req fuel _ PyNone _ r w);
    [| unfold MAX_ATTEMPTS; lia | exact Hep | exact Hne].
  rewrite advanced_advanced, count_calls_app, count_sleeps_app,
    retries_count_calls, retries_count_sleeps, Hlen.
  repeat split; try count_events.
  change [Call req; Warn (MsgError (str_of_Z (status_code r)) req)]
    with ([Call req] ++ [Warn (MsgError (str_of_Z (status_code r)) req)]).
  rewrite app_assoc. apply last_last.
Qed.

Lemma loop_exhausted req fuel try_again attempts res (s : state world) :
  MAX_ATTEMPTS <= attempts ->
  make_request_loop endpoint req fuel try_again attempts res s =
  (Returns res, s).
Proof.
  intros H. apply Z.ltb_ge in H.
  destruct fuel; simpl; rewrite H, andb_false_r; reflexivity.
Qed.

Lemma pauses_are_fixed_app t1 t2 :
  pauses_are_fixed t1 -> pauses_are_fixed t2 -> pauses_are_fixed (t1 ++ t2).
Proof.
  intros H1 H2 d Hin. apply in_app_or in Hin as [Hin | Hin]; auto.
Qed.

Lemma pauses_are_fixed_retry req e : pauses_are_fixed (retry_events req e).
Proof.
  intros d Hin. simpl in Hin.
  destruct Hin as [H | [H | [H | [H | []]]]]; try discriminate H.
  now injection H.
Qed.

Lemma pauses_are_fixed_none t :
  count_sleeps t = O -> pauses_are_fixed t.
Proof.
  intros H d Hin. exfalso.
  unfold count_sleeps in H. apply length_zero_iff_nil in H.
  assert (Hf : In (Sleep d) (filter is_sleep t))
    by (apply filter_In; split; [exact Hin | reflexivity]).
  rewrite H in Hf. contradiction.
Qed.

(** What the loop does from any number of attempts below the limit. *)
Lemma loop_bounds req fuel :
  forall attempts res (s : state world),
    attempts < MAX_ATTEMPTS ->
    MAX_ATTEMPTS - attempts <= Z.of_nat fuel ->
    exists w t,
      snd (make_request_loop endpoint req fuel true attempts res s) =
        advanced w t s /\
      (1 <= count_calls t)%nat /\
      Z.of_nat (count_calls t) <= MAX_ATTEMPTS - attempts /\
      (count_sleeps t <= count_calls t)%nat /\
      pauses_are_fixed t /\
      match fst (make_request_loop endpoint req fuel true attempts res s) with
      | Returns _ => True
      | Raises e => handled e = false
      | OutOfFuel => False
      end.
Proof.
  induction fuel as [| fuel IH]; intros attempts res s Hlt Hfuel;
    [unfold MAX_ATTEMPTS in *; lia |].
  assert (Hroom : 1 <= MAX_ATTEMPTS - attempts) by lia.
  destruct (endpoint req (net s)) as [[v | e] w] eqn:Hep.
  - destruct (accepted v) eqn:Hacc.
    + rewrite (loop_accepted_step world endpoint req fuel attempts res s v w
                 Hlt Hep Hacc).
      exists w, [Call req]. cbn [fst snd].
      split_all; try reflexivity; try count_events; try exact I.
      now apply pauses_are_fixed_none.
    + destruct v as [r | j]; [| discriminate Hacc].
      assert (Hne : status_code r <> 200)
        by (unfold accepted in Hacc; simpl in Hacc; now apply Z.eqb_neq).
      rewrite (loop_rejected_step world endpoint req fuel attempts res s r w
                 Hlt Hep Hne).
      eexists w, _. cbn [fst snd].
      split_all; try reflexivity; try count_events; try exact I.
      now apply pauses_are_fixed_none.
  - destruct (fatal e) eqn:Hf.
    + rewrite (loop_fatal_step req fuel attempts res s e w Hlt Hep Hf).
      eexists w, _. cbn [fst snd].
      split_all; try reflexivity; try count_events; try exact I.
      now apply pauses_are_fixed_none.
    + destruct (handled e) eqn:Hh.
      * assert (Htr : transient (Throws e) = true)
          by (destruct e; try discriminate Hf; try discriminate Hh;
              reflexivity).
        destruct (loop_transient_step world endpoint req fuel attempts res s
                    (Throws e) w Hlt Hep Htr) as (e' & He & Hstep).
        injection He as <-. rewrite Hstep.
        destruct (Z_lt_ge_dec (attempts + 1) MAX_ATTEMPTS) as [Hmore | Hlast].
        -- destruct (IH (attempts + 1) res
                       (advanced w (retry_events req e) s))
             as (w' & t & Hsnd & H1 & H2 & H3 & H4 & H5); [exact Hmore | lia |].
           exists w', (retry_events req e ++ t).
           rewrite Hsnd, advanced_advanced, count_calls_app, count_sleeps_app.
           split_all; try reflexivity; try exact H5;
             try count_events.
           apply pauses_are_fixed_app;
             [apply pauses_are_fixed_retry | exact H4].
        -- rewrite loop_exhausted by lia.
           exists w, (retry_events req e). cbn [fst snd].
           split_all; try reflexivity; try exact I;
             try count_events.
           apply pauses_are_fixed_retry.
      * rewrite (loop_unhandled_step req fuel attempts res s e w Hlt Hep Hh).
        exists w, [Call req]. cbn [fst snd].
        split_all; try reflexivity; try count_events; try exact Hh.
        now apply pauses_are_fixed_none.
Qed.

(** X5: whatever the operation does, the executor comes back: it calls
    the operation at least once and at most five times, pauses no more
    often than it calls and always for thirty seconds, leaves the
    tables alone, and raises none of the four exceptions it handles. *)
Theorem make_request_is_bounded req (s : state world) :
  exists w t,
    snd (make_request endpoint req s) = advanced w t s /\
    (1 <= count_calls t <= 5)%nat /\
    (count_sleeps t <= count_calls t)%nat /\
    pauses_are_fixed t /\
    fst (make_request endpoint req s) <> OutOfFuel /\
    forall e, fst (make_request endpoint req s) = Raises e -> handled e = false.
Proof.
  destruct (loop_bounds req 5 0 PyNone s)
    as (w & t & Hsnd & H1 & H2 & H3 & H4 & H5);
    [reflexivity | unfold MAX_ATTEMPTS; simpl; lia |].
  exists w, t. unfold make_request. change (Z.to_nat MAX_ATTEMPTS) with 5%nat.
  unfold MAX_ATTEMPTS in H2.
  split_all; try assumption; try lia.
  - intros E. rewrite E in H5. exact H5.
  - intros e E. rewrite E in H5. exact H5.
Qed.

End MakeRequestMore.

(** The make_request properties on scripted networks. *)

Lemma make_request_returns_accepted_value_witness :
  exists t,
    make_request play (ReadmeGet "foo" "bar")
      (start [Throws ReadTimeout; Throws ConnectionError;
              Gives (Decoded (JObj [("content", JStr "")]))] [] []) =
    (Returns (Decoded (JObj [("content", JStr "")])),
     advanced [] t
       (start [Throws ReadTimeout; Throws ConnectionError;
               Gives (Decoded (JObj [("content", JStr "")]))] [] [])) /\
    count_calls t = 3%nat /\
    count_sleeps t = 2%nat /\
    (2%nat = O -> t = [Call (ReadmeGet "foo" "bar")]).
Proof.
  apply (make_request_returns_accepted_value script play
           (ReadmeGet "foo" "bar") 2
           (Decoded (JObj [("content", JStr "")])) []).
  - lia.
  - simpl. repeat constructor.
  - reflexivity.
  - reflexivity.
Defined.

Lemma make_request_stops_at_fatal_error_witness :
  exists t,
    make_request play (SearchGet "" "NPM" 0)
      (start [Throws ConnectionError; Throws HttpServerError;
              Gives (Decoded (JList []))] [] []) =
    (Returns PyNone,
     advanced [Gives (Decoded (JList []))] t
       (start [Throws ConnectionError; Throws HttpServerError;
               Gives (Decoded (JList []))] [] [])) /\
    count_calls t = 2%nat /\
    count_sleeps t = 1%nat /\
    last t (Call (SearchGet "" "NPM" 0)) =
      Warn (MsgError "Server 500" (SearchGet "" "NPM" 0)).
Proof.
  apply (make_request_stops_at_fatal_error script play
           (SearchGet "" "NPM" 0) 1 HttpServerError
           [Gives (Decoded (JList []))]).
  - lia.
  - simpl. repeat constructor.
  - reflexivity.
  - reflexivity.
Defined.

Lemma make_request_lets_other_exceptions_through_witness :
  exists t,
    make_request play (SessionGet "u")
      (start [Throws ReadTimeout; Throws ValueError] [] []) =
    (Raises ValueError,
     advanced [] (t ++ [Call (SessionGet "u")])
       (start [Throws ReadTimeout; Throws ValueError] [] [])) /\
    count_calls t = 1%nat /\
    count_sleeps t = 1%nat.
Proof.
  apply (make_request_lets_other_exceptions_through script play
           (SessionGet "u") 1 ValueError []).
  - lia.
  - simpl. repeat constructor.
  - reflexivity.
  - reflexivity.
Defined.

Lemma make_request_stops_at_bad_status_witness :
  exists t,
    make_request play (SessionGet "u")
      (start [Throws ReadTimeout; Gives (Response (mkResponse 503 "" None))]
         [] []) =
    (Returns PyNone,
     advanced [] t
       (start [Throws ReadTimeout; Gives (Response (mkResponse 503 "" None))]
          [] [])) /\
    count_calls t = 2%nat /\
    count_sleeps t = 1%nat /\
    last t (Call (SessionGet "u")) = Warn (MsgError "503" (SessionGet "u")).
Proof.
  apply (make_request_stops_at_bad_status script play
           (SessionGet "u") 1 (mkResponse 503 "" None) []).
  - lia.
  - simpl. repeat constructor.
  - reflexivity.
  - discriminate.
Defined.

(** ** github_info: the other URLs *)

Local Open Scope string_scope.

Lemma break_at_None sep s :
  count_char sep s = O -> break_at sep s = None.
Proof.
  induction s as [| c s IH]; simpl; [reflexivity |].
  destruct (Ascii.eqb c sep); [discriminate |].
  intros H. now rewrite (IH H).
Qed.

Lemma break_at_count sep s a b :
  break_at sep s = Some (a, b) -> count_char sep s = S (count_char sep b).
Proof.
  revert a b. induction s as [| c s IH]; simpl; intros a b H; [discriminate |].
  destruct (Ascii.eqb c sep).
  - now injection H as _ ->.
  - destruct (break_at sep s) as [[a' b'] |]; [| discriminate].
    injection H as _ <-. now apply (IH a').
Qed.

(** Fewer than two separators: the split has fewer than three parts. *)
Lemma split_short sep s :
  (count_char sep s < 2)%nat -> (List.length (split sep 2 s) < 3)%nat.
Proof.
  intros H. simpl.
  destruct (break_at sep s) as [[a b] |] eqn:E; [| simpl; lia].
  apply break_at_count in E.
  assert (Hb : count_char sep b = O) by lia.
  rewrite (break_at_None _ _ Hb). simpl. lia.
Qed.

(** X6: a URL that has the marker and fewer than two slashes in what
    the substitution leaves gives no identity and no [None] either:
    the unpacking of the split raises [ValueError]. *)
Theorem github_info_raises_without_two_slashes (url : string) :
  contains "github.com" url = true ->
  (count_char slash (re_sub_marker url) < 2)%nat ->
  github_info (JStr url) = Raises ValueError.
Proof.
  intros Hin Hshort. unfold github_info. rewrite Hin.
  apply split_short in Hshort.
  destruct (split slash 2 (re_sub_marker url)) as [| a [| b [| c [| d l]]]];
    try reflexivity; simpl in Hshort; lia.
Qed.

Lemma github_info_raises_without_two_slashes_witness :
  github_info (JStr "git@github.com:foo/bar.git") = Raises ValueError.
Proof.
  apply (github_info_raises_without_two_slashes "git@github.com:foo/bar.git").
  - reflexivity.
  - simpl. lia.
Defined.

Lemma match_marker_other_head a s :
  Ascii.eqb "g" a = false -> match_marker (String a s) = None.
Proof. intros H. unfold match_marker. cbn [strip_prefix]. now rewrite H. Qed.

Lemma match_through_marker_skip a s :
  Ascii.eqb a newline = false ->
  match_marker (String a s) = None ->
  match_through_marker (String a s) = match_through_marker s.
Proof.
  intros Ha Hm. rewrite match_through_marker_cons, Ha, Hm.
  now destruct (match_through_marker s).
Qed.

Lemma match_through_marker_any c rest :
  c <> newline ->
  match_through_marker ("github" ++ String c ("com" ++ rest)) =
  Some (match match_through_marker rest with
        | Some r => r
        | None => rest
        end).
Proof.
  intros Hc.
  assert (Hg : match_marker (String c ("com" ++ rest)) = None).
  { unfold match_marker. cbn [strip_prefix append].
    destruct (Ascii.eqb "g" c); reflexivity. }
  assert (Htail : match_through_marker
                    ("ithub" ++ String c ("com" ++ rest)) =
                  match_through_marker rest).
  { cbn [append].
    do 5 (rewrite match_through_marker_skip;
          [| reflexivity | now apply match_marker_other_head]).
    rewrite match_through_marker_skip;
      [| now apply Ascii.eqb_neq | exact Hg].
    do 3 (rewrite match_through_marker_skip;
          [| reflexivity | now apply match_marker_other_head]).
    reflexivity. }
  change ("github" ++ String c ("com" ++ rest))
    with (String "g" ("ithub" ++ String c ("com" ++ rest))).
  rewrite match_through_marker_cons, Htail.
  change (("g" =? newline)%char) with false. cbv iota.
  destruct (match_through_marker rest) as [r |]; [reflexivity |].
  change (String "g" ("ithub" ++ String c ("com" ++ rest)))
    with ("github" ++ String c ("com" ++ rest)).
  now apply match_marker_app.
Qed.

Lemma match_through_marker_pre pre s r :
  has_char newline pre = false ->
  match_through_marker s = Some r ->
  match_through_marker (pre ++ s) = Some r.
Proof.
  induction pre as [| a pre IH]; intros Hpre Hs; [exact Hs |].
  simpl in Hpre. apply orb_false_elim in Hpre as [Ha Hpre].
  change (String a pre ++ s) with (String a (pre ++ s)).
  now rewrite match_through_marker_cons, Ha, (IH Hpre Hs).
Qed.

Lemma append_assoc a b c : (a ++ b) ++ c = a ++ (b ++ c).
Proof. induction a as [| d a IH]; simpl; [| rewrite IH]; reflexivity. Qed.

Lemma has_char_app c a b : has_char c (a ++ b) = has_char c a || has_char c b.
Proof.
  induction a as [| d a IH]; simpl; [reflexivity |].
  now rewrite IH, orb_assoc.
Qed.

(** X7: the identity is read after the last text that matches the
    pattern, and the pattern's dot matches any character: a URL with
    the marker, and further on the same line with "github", one more
    character and "com", gives the owner and repository that follow
    the latter. *)
Theorem github_info_reads_after_last_match
    (pre mid : string) (c : ascii) (owner repo : string) :
  has_char newline pre = false ->
  has_char newline mid = false ->
  c <> newline ->
  has_char slash owner = false ->
  ~ marker_match_in ("/" ++ owner ++ "/" ++ repo) ->
  github_info
    (JStr (pre ++ "github.com" ++ mid ++ "github"
           ++ String c ("com" ++ "/" ++ owner ++ "/" ++ repo))) =
  Returns (Some (owner, repo)).
Proof.
  intros Hpre Hmid Hc Ho Hno.
  unfold github_info. rewrite contains_app.
  assert (Hsub : re_sub_marker
                   (pre ++ "github.com" ++ mid ++ "github"
                    ++ String c ("com" ++ "/" ++ owner ++ "/" ++ repo))
                 = "/" ++ owner ++ "/" ++ repo).
  { unfold re_sub_marker.
    rewrite (match_through_marker_pre pre _ ("/" ++ owner ++ "/" ++ repo));
      [reflexivity | exact Hpre |].
    replace ("github.com" ++ mid ++ "github"
             ++ String c ("com" ++ "/" ++ owner ++ "/" ++ repo))
      with (("github.com" ++ mid) ++ "github"
            ++ String c ("com" ++ "/" ++ owner ++ "/" ++ repo))
      by apply append_assoc.
    apply match_through_marker_pre.
    - rewrite has_char_app, Hmid. reflexivity.
    - rewrite (match_through_marker_any c _ Hc).
      now rewrite (no_match_through_marker _ Hno). }
  rewrite Hsub.
  change ("/" ++ owner ++ "/" ++ repo) with ("" ++ "/" ++ owner ++ "/" ++ repo).
  now rewrite (split_two_slashes "" owner repo eq_refl Ho).
Qed.

Lemma match_through_marker_complete s :
  match_through_marker s = None -> ~ marker_match_in s.
Proof.
  intros Hnone (x & c & y & -> & Hx & Hc).
  rewrite (match_through_marker_pre x _ _ Hx (match_through_marker_any c y Hc))
    in Hnone.
  discriminate.
Qed.

Lemma github_info_reads_after_last_match_witness :
  github_info (JStr "https://github.com/x/github-com/foo/bar/baz") =
  Returns (Some ("foo", "bar/baz")).
Proof.
  apply (github_info_reads_after_last_match "https://" "/x/" "-"
           "foo" "bar/baz").
  - reflexivity.
  - reflexivity.
  - discriminate.
  - reflexivity.
  - apply match_through_marker_complete. reflexivity.
Defined.

(** ** to_count: what it rejects and what it lets through *)

Lemma has_char_replace_comma c s :
  c <> comma -> has_char c (replace comma "" s) = has_char c s.
Proof.
  intros Hc. induction s as [| d s IH]; simpl; [reflexivity |].
  destruct (Ascii.eqb d comma) eqn:E; simpl.
  - apply Ascii.eqb_eq in E. subst d.
    assert (Hn : Ascii.eqb comma c = false)
      by (apply Ascii.eqb_neq; congruence).
    now rewrite Hn.
  - now rewrite IH.
Qed.

Lemma has_char_lstrip c s :
  is_space c = false -> has_char c (lstrip s) = has_char c s.
Proof.
  intros Hc. induction s as [| d s IH]; simpl; [reflexivity |].
  destruct (is_space d) eqn:E; [| reflexivity].
  assert (Hn : Ascii.eqb d c = false).
  { apply Ascii.eqb_neq. intros ->. congruence. }
  now rewrite IH, Hn.
Qed.

Lemma has_char_rev_append c s : forall acc,
  has_char c (rev_append s acc) = has_char c s || has_char c acc.
Proof.
  induction s as [| d s IH]; intros acc; simpl; [reflexivity |].
  rewrite IH. simpl.
  destruct (Ascii.eqb d c), (has_char c s), (has_char c acc); reflexivity.
Qed.

Lemma has_char_strip c s :
  is_space c = false -> has_char c (strip s) = has_char c s.
Proof.
  intros Hc. unfold strip, string_rev.
  rewrite has_char_rev_append, (has_char_lstrip _ _ Hc), has_char_rev_append,
    (has_char_lstrip _ _ Hc).
  simpl. now rewrite !orb_false_r.
Qed.

Lemma digits_value_other c s : forall acc,
  has_char c s = true -> is_digit c = false -> digits_value acc s = None.
Proof.
  induction s as [| d s IH]; intros acc Hin Hc; simpl in *; [discriminate |].
  destruct (Ascii.eqb d c) eqn:E.
  - apply Ascii.eqb_eq in E. subst d. now rewrite Hc.
  - destruct (is_digit d); [now apply IH | reflexivity].
Qed.

Lemma unsigned_literal_other c s :
  has_char c s = true -> is_digit c = false -> unsigned_literal s = None.
Proof.
  intros Hin Hc. destruct s as [| d s]; [reflexivity |].
  now apply (digits_value_other c).
Qed.

(** X8: a string with a character that is neither a digit, a comma, a
    sign nor whitespace is no count: [to_count] raises [ValueError]. *)
Theorem to_count_rejects_other_characters (s : string) (c : ascii) :
  has_char c s = true ->
  is_digit c = false ->
  is_space c = false ->
  c <> comma -> c <> "-"%char -> c <> "+"%char ->
  to_count s = Raises ValueError.
Proof.
  intros Hin Hd Hs Hcomma Hminus Hplus.
  unfold to_count.
  destruct s as [| a s']; [discriminate Hin |].
  change (negb (String a s' =? "")) with true. cbv iota.
  set (t := strip (replace comma "" (String a s'))).
  assert (Ht : has_char c t = true).
  { unfold t. now rewrite (has_char_strip _ _ Hs),
                (has_char_replace_comma _ _ Hcomma). }
  unfold int. fold t.
  assert (Hall : unsigned_literal t = None)
    by now apply (unsigned_literal_other c).
  destruct t as [| b d]; [discriminate Ht |].
  assert (Htail : b = "-"%char \/ b = "+"%char -> unsigned_literal d = None).
  { intros Hb. apply (unsigned_literal_other c); [| exact Hd].
    simpl in Ht. apply orb_prop in Ht as [E | E]; [| exact E].
    apply Ascii.eqb_eq in E. subst c. destruct Hb; contradiction. }
  destruct b as [[|] [|] [|] [|] [|] [|] [|] [|]];
    try (rewrite Hall; reflexivity);
    rewrite Htail; auto.
Qed.

Lemma to_count_rejects_other_characters_witness :
  to_count "1.2k" = Raises ValueError.
Proof.
  apply (to_count_rejects_other_characters "1.2k" "."); try reflexivity;
    discriminate.
Defined.

Lemma replace_only_commas s :
  only_char comma s = true -> replace comma "" s = "".
Proof.
  induction s as [| c s IH]; simpl; [reflexivity |].
  intros H. apply andb_prop in H as [Hc Hs]. now rewrite Hc, (IH Hs).
Qed.

(** X9: the empty string is the only one [to_count] takes for zero
    without reading a digit: a string of separators alone raises
    [ValueError]. *)
Theorem to_count_rejects_separators_alone (s : string) :
  s <> "" ->
  only_char comma s = true ->
  to_count s = Raises ValueError.
Proof.
  intros Hne Hs. unfold to_count.
  destruct s as [| c s]; [now elim Hne |].
  change (negb (String c s =? "")) with true. cbv iota.
  now rewrite (replace_only_commas _ Hs).
Qed.

Lemma to_count_rejects_separators_alone_witness :
  to_count ",," = Raises ValueError.
Proof.
  apply (to_count_rejects_separators_alone ",,"); [discriminate | reflexivity].
Defined.

Lemma lstrip_rev_append_digits d : forall a acc,
  all_digits d = true ->
  is_space a = false ->
  lstrip (rev_append d (String a acc)) = rev_append d (String a acc).
Proof.
  induction d as [| c d IH]; intros a acc Hd Ha; simpl.
  - now rewrite Ha.
  - simpl in Hd. apply andb_prop in Hd as [Hc Hd].
    apply IH; [exact Hd | now apply digit_not_space].
Qed.

Lemma strip_minus_digits d :
  all_digits d = true -> strip (String "-" d) = String "-" d.
Proof.
  intros Hd. unfold strip.
  change (lstrip (String "-" d)) with (String "-" d).
  unfold string_rev at 2. cbn [rev_append].
  rewrite (lstrip_rev_append_digits d "-" "" Hd eq_refl).
  unfold string_rev. rewrite rev_append_rev_append.
  cbn [rev_append]. now rewrite append_nil_r.
Qed.

(** X10: [to_count] takes a minus sign before the digits and returns
    the negative number; nothing in it keeps a count from being below
    zero. *)
Theorem to_count_accepts_minus_sign g gs :
  g <> "" ->
  all_digits g = true ->
  Forall (fun x => all_digits x = true) gs ->
  exists u,
    NilEmpty.uint_of_string (g ++ String.concat "" gs) = Some u /\
    to_count (String "-" (String.concat "," (g :: gs))) =
      Returns (- Z.of_uint u).
Proof.
  intros Hne Hg Hgs.
  destruct (replace_comma_concat gs g Hg Hgs) as [Hrep Hall].
  destruct (digits_value_numeral _ Hall) as (u & Hu & _ & Hval).
  exists u. split; [exact Hu |].
  unfold to_count. change (negb (String "-" _ =? "")) with true. cbv iota.
  cbn [replace]. change (Ascii.eqb "-" comma) with false. cbv iota.
  rewrite Hrep. unfold int. rewrite (strip_minus_digits _ Hall).
  cbv iota beta.
  assert (Hlit : unsigned_literal (g ++ String.concat "" gs)
                 = Some (Z.of_uint u)).
  { destruct g as [| c g]; [now elim Hne |].
    change (unsigned_literal (String c g ++ String.concat "" gs))
      with (digits_value 0 (String c g ++ String.concat "" gs)).
    now rewrite Hval. }
  now rewrite Hlit.
Qed.

Lemma to_count_accepts_minus_sign_witness :
  exists u,
    NilEmpty.uint_of_string "1234" = Some u /\
    to_count "-1,234" = Returns (- Z.of_uint u).
Proof.
  apply (to_count_accepts_minus_sign "1" ["234"]).
  - discriminate.
  - reflexivity.
  - repeat constructor.
Defined.

(** ** b64decode: line breaks in the encoded text *)

Local Open Scope Z_scope.

Lemma b64_blank_cases c :
  b64_blank c = true -> c = "013"%char \/ c = newline \/ c = space.
Proof.
  destruct c as [[|] [|] [|] [|] [|] [|] [|] [|]];
    try discriminate; intros _; auto.
Qed.

Lemma all_ascii_blank s1 c s2 :
  b64_blank c = true ->
  all_ascii (s1 ++ String c s2) = all_ascii (s1 ++ s2).
Proof.
  intros Hc. induction s1 as [| a s1 IH]; simpl; [| now rewrite IH].
  destruct (b64_blank_cases _ Hc) as [-> | [-> | ->]]; reflexivity.
Qed.

Lemma binascii_find_valid_blank s1 c s2 :
  b64_blank c = true ->
  forall num,
    binascii_find_valid (s1 ++ String c s2) num =
    binascii_find_valid (s1 ++ s2) num.
Proof.
  intros Hc. induction s1 as [| a s1 IH]; intros num.
  - destruct (b64_blank_cases _ Hc) as [-> | [-> | ->]]; reflexivity.
  - cbn [append binascii_find_valid].
    destruct ((code a <=? 127) &&
              match table_a2b_base64 a with Some _ => true | None => false end).
    + destruct num; [reflexivity | apply IH].
    + apply IH.
Qed.

Lemma a2b_base64_loop_cons this_ch rest quad_pos leftbits leftchar bin_data :
  a2b_base64_loop (String this_ch rest) quad_pos leftbits leftchar bin_data =
  if (127 <? code this_ch) || (code this_ch =? 13) ||
     (code this_ch =? 10) || (code this_ch =? 32)
  then a2b_base64_loop rest quad_pos leftbits leftchar bin_data
  else if Ascii.eqb this_ch BASE64_PAD then
    if (quad_pos <? 2) ||
       ((quad_pos =? 2) &&
        negb match binascii_find_valid (String this_ch rest) 1 with
             | Some c => Ascii.eqb c BASE64_PAD
             | None => false
             end)
    then a2b_base64_loop rest quad_pos leftbits leftchar bin_data
    else (0, bin_data)
  else
    match table_a2b_base64 this_ch with
    | None => a2b_base64_loop rest quad_pos leftbits leftchar bin_data
    | Some v =>
        if 8 <=? leftbits + 6 then
          a2b_base64_loop rest (Z.land (quad_pos + 1) 3) (leftbits + 6 - 8)
            (Z.land (Z.lor (Z.shiftl leftchar 6) v)
               (Z.shiftl 1 (leftbits + 6 - 8) - 1))
            (bin_data ++
             String (ascii_of_N
                       (Z.to_N (Z.land (Z.shiftr (Z.lor (Z.shiftl leftchar 6) v)
                                          (leftbits + 6 - 8)) 255)))
               EmptyString)
        else a2b_base64_loop rest (Z.land (quad_pos + 1) 3) (leftbits + 6)
               (Z.lor (Z.shiftl leftchar 6) v) bin_data
    end.
Proof. reflexivity. Qed.

Lemma a2b_base64_loop_blank s1 c s2 :
  b64_blank c = true ->
  forall quad_pos leftbits leftchar bin_data,
    a2b_base64_loop (s1 ++ String c s2) quad_pos leftbits leftchar bin_data =
    a2b_base64_loop (s1 ++ s2) quad_pos leftbits leftchar bin_data.
Proof.
  intros Hc. induction s1 as [| a s1 IH];
    intros quad_pos leftbits leftchar bin_data.
  - cbn [append]. rewrite a2b_base64_loop_cons.
    unfold b64_blank in Hc.
    assert (E : (127 <? code c) || (code c =? 13) ||
                (code c =? 10) || (code c =? 32) = true).
    { destruct (127 <? code c); [reflexivity | exact Hc]. }
    now rewrite E.
  - change (String a s1 ++ String c s2) with (String a (s1 ++ String c s2)).
    change (String a s1 ++ s2) with (String a (s1 ++ s2)).
    rewrite !a2b_base64_loop_cons.
    change (String a (s1 ++ String c s2)) with (String a s1 ++ String c s2).
    change (String a (s1 ++ s2)) with (String a s1 ++ s2).
    rewrite (binascii_find_valid_blank (String a s1) c s2 Hc).
    destruct ((127 <? code a) || (code a =? 13) ||
              (code a =? 10) || (code a =? 32)); [apply IH |].
    destruct (Ascii.eqb a BASE64_PAD).
    + match goal with
      | |- (if ?b then _ else _) = _ => destruct b; [apply IH | reflexivity]
      end.
    + destruct (table_a2b_base64 a) as [v |]; [| apply IH].
      destruct (8 <=? leftbits + 6); apply IH.
Qed.

(** X11: carriage returns, line feeds and spaces in the encoded text
    do not count: taking one out anywhere leaves what [b64decode]
    returns or raises as it was. *)
Theorem b64decode_ignores_line_breaks (s1 s2 : string) (c : ascii) :
  b64_blank c = true ->
  b64decode (s1 ++ String c s2) = b64decode (s1 ++ s2).
Proof.
  intros Hc. unfold b64decode.
  now rewrite (all_ascii_blank _ _ _ Hc), (a2b_base64_loop_blank _ _ _ Hc).
Qed.

Lemma b64decode_ignores_line_breaks_witness :
  b64decode ("SGVs" ++ String newline "bG8=") = Returns "Hello".
Proof.
  rewrite (b64decode_ignores_line_breaks "SGVs" "bG8=" newline).
  - reflexivity.
  - reflexivity.
Defined.

(** ** The readme fetch over a batch *)

Local Open Scope list_scope.
Local Open Scope Z_scope.

Section ReadmesMore.

Variable world : Type.
Variable endpoint : request -> world -> reply * world.

(** The batch is the fetch of its first record followed by the fetch
    of the others; an exception at the first record ends it. *)
Lemma fetch_github_readmes_cons p rest (s : state world) :
  fetch_github_readmes endpoint (p :: rest) s =
  match fetch_github_readmes endpoint [p] s with
  | (Returns _, s') => fetch_github_readmes endpoint rest s'
  | (Raises e, s') => (Raises e, s')
  | (OutOfFuel, s') => (OutOfFuel, s')
  end.
Proof.
  unfold fetch_github_readmes.
  match goal with
  | |- context [for_each _ rest ?b] => set (body := b)
  end.
  cbn [for_each]. unfold bind.
  destruct (body p s) as [[u | e |] s']; reflexivity.
Qed.

Lemma fetch_github_readmes_one_unhosted p (s : state world) :
  github_info (repository_url p) = Returns None ->
  fetch_github_readmes endpoint [p] s =
  (Returns tt, advanced (net s) [Info (MsgNotFetchingReadme (name p))] s).
Proof.
  intros H. unfold fetch_github_readmes, for_each.
  unfold bind at 1. unfold bind at 1. unfold lift at 1. now rewrite H.
Qed.

(** X12: records whose URL gives no code-hosting identity are passed
    over: for a batch of such records the fetch asks the network
    nothing, stores nothing, and logs one note per record, in order. *)
Theorem fetch_github_readmes_passes_over_unhosted packages (s : state world) :
  Forall (fun p => github_info (repository_url p) = Returns None) packages ->
  fetch_github_readmes endpoint packages s =
  (Returns tt,
   advanced (net s)
     (map (fun p => Info (MsgNotFetchingReadme (name p))) packages) s).
Proof.
  intros Hall. revert s.
  induction Hall as [| p rest Hp _ IH]; intros s.
  - cbn. now rewrite advanced_nil.
  - rewrite fetch_github_readmes_cons,
      (fetch_github_readmes_one_unhosted p s Hp), IH.
    now rewrite advanced_advanced.
Qed.

Lemma fetch_github_readmes_one_hosted p user repo_name (s : state world) :
  github_info (repository_url p) = Returns (Some (user, repo_name)) ->
  fetch_github_readmes endpoint [p] s =
  match make_request endpoint (ReadmeGet user repo_name)
          (advanced (net s) [Info (MsgFetchingReadme (name p))] s) with
  | (Returns readme, s1) =>
      if negb (is_None readme) then
        match py_getitem readme "content" with
        | Returns (JStr b64) =>
            match b64decode b64 with
            | Returns text =>
                (Returns tt,
                 with_table (model p)
                   (store (set_readme (JStr text) p) (table_of (model p) s1))
                   s1)
            | Raises e => (Raises e, s1)
            | OutOfFuel => (OutOfFuel, s1)
            end
        | Returns _ => (Raises TypeError, s1)
        | Raises e => (Raises e, s1)
        | OutOfFuel => (OutOfFuel, s1)
        end
      else (Returns tt, s1)
  | (Raises e, s1) => (Raises e, s1)
  | (OutOfFuel, s1) => (OutOfFuel, s1)
  end.
Proof.
  intros H. unfold fetch_github_readmes, for_each.
  unfold bind at 1. unfold bind at 1. unfold lift at 1. rewrite H.
  unfold bind at 1. unfold logging_info at 1, emit at 1.
  change (mkState (net s) (trace s ++ [Info (MsgFetchingReadme (name p))])
            (npm_table s) (pypi_table s))
    with (advanced (net s) [Info (MsgFetchingReadme (name p))] s).
  unfold bind at 1.
  destruct (make_request endpoint (ReadmeGet user repo_name) _)
    as [[readme | e |] s1]; try reflexivity.
  destruct (negb (is_None readme)); [| reflexivity].
  unfold bind at 1, lift at 1.
  destruct (py_getitem readme "content") as [[| | | b64 | |] | e |];
    try reflexivity.
  unfold bind at 1, lift at 1.
  destruct (b64decode b64) as [text | e |]; reflexivity.
Qed.

(** X13: a readme request that ends without result costs the record
    its readme and nothing else: the batch goes on with the next
    record from the state the executor left. *)
Theorem fetch_github_readmes_goes_on_after_no_result
    p rest user repo_name (s s1 : state world) :
  github_info (repository_url p) = Returns (Some (user, repo_name)) ->
  make_request endpoint (ReadmeGet user repo_name)
    (advanced (net s) [Info (MsgFetchingReadme (name p))] s) =
    (Returns PyNone, s1) ->
  fetch_github_readmes endpoint (p :: rest) s =
  fetch_github_readmes endpoint rest s1.
Proof.
  intros Hinfo Hreq.
  rewrite fetch_github_readmes_cons,
    (fetch_github_readmes_one_hosted p user repo_name s Hinfo), Hreq.
  reflexivity.
Qed.

(** X14: a readme object whose [content] decodes: the record is saved
    with the decoded text as its readme, whatever the text, and its
    other attributes as they were, and the batch goes on with the next
    record; when the table held a record of that name, the saved one is
    what it holds under the name from then on. *)
Theorem fetch_github_readmes_saves_and_goes_on
    p rest user repo_name fields b64 text w (s : state world) :
  github_info (repository_url p) = Returns (Some (user, repo_name)) ->
  endpoint (ReadmeGet user repo_name) (net s) =
    (Gives (Decoded (JObj fields)), w) ->
  assoc "content" fields = Some (JStr b64) ->
  b64decode b64 = Returns text ->
  exists s1,
    fetch_github_readmes endpoint (p :: rest) s =
      fetch_github_readmes endpoint rest s1 /\
    s1 =
      with_table (model p)
        (store
           (mkPackage (model p) (name p) (repository_url p) (page_no p)
              (JStr text) (description p) (day_download_count p)
              (week_download_count p) (month_download_count p)
              (dependents p) (dependencies p))
           (table_of (model p) s))
        (advanced w [Info (MsgFetchingReadme (name p));
                     Call (ReadmeGet user repo_name)] s) /\
    (forall q,
       find_by_name (name p) (table_of (model p) s) = Some q ->
       find_by_name (name p) (table_of (model p) s1) =
         Some
           (mkPackage (model p) (name p) (repository_url p) (page_no p)
              (JStr text) (description p) (day_download_count p)
              (week_download_count p) (month_download_count p)
              (dependents p) (dependencies p))).
Proof.
  intros Hinfo Hep Hcontent Hdec.
  eexists. split; [| split; [reflexivity |]].
  - rewrite fetch_github_readmes_cons,
      (fetch_github_readmes_one_hosted p user repo_name s Hinfo).
    rewrite (make_request_accepted world endpoint (ReadmeGet user repo_name) _
               (Decoded (JObj fields)) w); [| exact Hep | reflexivity].
    cbn [is_None negb py_getitem getitem]. rewrite Hcontent, Hdec.
    rewrite advanced_advanced. unfold set_readme.
    destruct (model p); reflexivity.
  - intros q Hq.
    match goal with
    | |- _ = Some ?saved =>
        replace (table_of (model p) _)
          with (store saved (table_of (model p) s))
          by (destruct (model p); reflexivity);
        apply (find_by_name_store saved _ q)
    end.
    exact Hq.
Qed.

(** X15: a record whose URL has the marker and fewer than two slashes
    after it ends the batch: [ValueError] leaves the fetch before any
    request, and the records behind it are not looked at. *)
Theorem fetch_github_readmes_stops_at_short_url
    p rest url (s : state world) :
  repository_url p = JStr url ->
  contains "github.com" url = true ->
  (count_char slash (re_sub_marker url) < 2)%nat ->
  fetch_github_readmes endpoint (p :: rest) s = (Raises ValueError, s).
Proof.
  intros Hurl Hin Hshort.
  assert (Hinfo : github_info (repository_url p) = Raises ValueError).
  { rewrite Hurl. unfold github_info. rewrite Hin.
    apply split_short in Hshort.
    destruct (split slash 2 (re_sub_marker url)) as [| a [| b [| c [| d l]]]];
      try reflexivity; simpl in Hshort; lia. }
  rewrite fetch_github_readmes_cons.
  unfold fetch_github_readmes, for_each.
  unfold bind at 1. unfold bind at 1. unfold lift at 1. now rewrite Hinfo.
Qed.

(** X16: a readme object without a usable [content] ends the batch
    with an exception and saves nothing: [KeyError] when the key is
    missing, [TypeError] when the value is no string, and what
    [b64decode] raises when the text does not decode. *)
Theorem fetch_github_readmes_stops_at_bad_content
    p rest user repo_name fields e w (s : state world) :
  github_info (repository_url p) = Returns (Some (user, repo_name)) ->
  endpoint (ReadmeGet user repo_name) (net s) =
    (Gives (Decoded (JObj fields)), w) ->
  match assoc "content" fields with
  | None => e = KeyError
  | Some (JStr b64) => b64decode b64 = Raises e
  | Some _ => e = TypeError
  end ->
  fetch_github_readmes endpoint (p :: rest) s =
  (Raises e,
   advanced w [Info (MsgFetchingReadme (name p));
               Call (ReadmeGet user repo_name)] s).
Proof.
  intros Hinfo Hep Hcontent.
  rewrite fetch_github_readmes_cons,
    (fetch_github_readmes_one_hosted p user repo_name s Hinfo).
  rewrite (make_request_accepted world endpoint (ReadmeGet user repo_name) _
             (Decoded (JObj fields)) w); [| exact Hep | reflexivity].
  cbn [is_None negb py_getitem getitem]. rewrite advanced_advanced.
  cbn [app].
  destruct (assoc "content" fields) as [[| | | b64 | |] |];
    subst; try reflexivity.
  now rewrite Hcontent.
Qed.

End ReadmesMore.

(** ** The detail fetch of the index ecosystem *)

Section PypiDataMore.

Variable world : Type.
Variable endpoint : request -> world -> reply * world.

(** X17: when every request is refused with a status other than 200,
    the detail fetch runs through the whole batch: one call per
    record, no pause, nothing stored, and a closing line that counts
    no package with data. *)
Theorem fetch_pypi_data_runs_through_refusals packages (s : state world) :
  (forall req w, exists r w',
      endpoint req w = (Gives (Response r), w') /\ status_code r <> 200) ->
  exists w t,
    fetch_pypi_data endpoint packages s = (Returns tt, advanced w t s) /\
    count_calls t = List.length packages /\
    count_sleeps t = O /\
    last t (Info MsgNoJSON) = Info (MsgDoneData 0).
Proof.
  intros Hrefuse. unfold fetch_pypi_data.
  rewrite bind_logging_info.
  match goal with
  | |- context [for_fold _ packages _ ?b] => set (body := b)
  end.
  assert (Hloop : forall ps vars w1 t1,
            count_sleeps t1 = O ->
            exists w2 t2,
              for_fold world ps vars body (advanced w1 t1 s) =
                (Returns vars, advanced w2 (t1 ++ t2) s) /\
              count_calls t2 = List.length ps /\
              count_sleeps t2 = O).
  { induction ps as [| p ps IH]; intros vars w1 t1 Ht1.
    - exists w1, []. now rewrite app_nil_r.
    - cbn [for_fold].
      destruct vars as [package_json num_fetched].
      destruct (Hrefuse (SessionGet (pypi_url p)) w1) as (r & w' & Hep & Hne).
      assert (Hrow : body p (package_json, num_fetched) (advanced w1 t1 s) =
                     (Returns (package_json, num_fetched),
                      advanced w'
                        (t1 ++ [Call (SessionGet (pypi_url p));
                                Warn (MsgError (str_of_Z (status_code r))
                                        (SessionGet (pypi_url p)))]) s)).
      { unfold body.
        rewrite (bind_returns world _ _ _ _ _
                   (make_request_rejected world endpoint
                      (SessionGet (pypi_url p)) (advanced w1 t1 s) r w'
                      Hep Hne)).
        cbn [is_None PyNone negb]. now rewrite advanced_advanced. }
      rewrite (bind_returns world _ _ _ _ _ Hrow).
      match goal with
      | |- context [advanced w' (t1 ++ ?t) s] =>
          destruct (IH (package_json, num_fetched) w' (t1 ++ t))
            as (w2 & t2 & Hrun & Hc & Hs)
      end.
      { rewrite count_sleeps_app, Ht1. reflexivity. }
      rewrite Hrun. eexists w2, (_ ++ t2).
      rewrite <- app_assoc. split; [reflexivity |].
      rewrite count_calls_app, count_sleeps_app, Hc, Hs.
      split; reflexivity. }
  destruct (Hloop packages (@None json, 0) (net s)
              [Info (MsgFetchingPyPIData (Z.of_nat (List.length packages)))])
    as (w2 & t2 & Hrun & Hc & Hs); [reflexivity |].
  rewrite (bind_returns world _ _ _ _ _ Hrun).
  cbv beta iota. unfold logging_info, emit.
  exists w2,
    (([Info (MsgFetchingPyPIData (Z.of_nat (List.length packages)))] ++ t2)
     ++ [Info (MsgDoneData 0)]).
  split; [| split; [| split]].
  - unfold advanced. cbn [net trace npm_table pypi_table].
    now rewrite <- !app_assoc.
  - rewrite !count_calls_app, Hc.
    change (count_calls [Info (MsgDoneData 0)]) with O.
    change (count_calls [Info (MsgFetchingPyPIData
                                 (Z.of_nat (List.length packages)))]) with O.
    lia.
  - rewrite !count_sleeps_app, Hs. reflexivity.
  - apply last_last.
Qed.

(** X18: a response with status 200 whose JSON has the expected shape:
    the record is saved with the three download counts, the summary as
    its description and the description as its readme; its other
    attributes stay, and the closing line counts one package. *)
Theorem fetch_pypi_data_saves_details
    p r w j info downloads last_day last_week last_month summary descr
    (s : state world) :
  endpoint (SessionGet (pypi_url p)) (net s) = (Gives (Response r), w) ->
  status_code r = 200 ->
  json_body r = Some j ->
  getitem j "info" = Returns info ->
  getitem info "downloads" = Returns downloads ->
  getitem downloads "last_day" = Returns last_day ->
  getitem downloads "last_week" = Returns last_week ->
  getitem downloads "last_month" = Returns last_month ->
  getitem info "summary" = Returns summary ->
  getitem info "description" = Returns descr ->
  fetch_pypi_data endpoint [p] s =
  (Returns tt,
   with_table (model p)
     (store (with_pypi_details last_day last_week last_month summary descr p)
        (table_of (model p) s))
     (advanced w
        [Info (MsgFetchingPyPIData 1); Call (SessionGet (pypi_url p));
         Info (MsgDoneData 1)] s)).
Proof.
  intros Hep H200 Hbody Hinfo Hdl Hday Hweek Hmonth Hsum Hdescr.
  unfold fetch_pypi_data.
  rewrite bind_logging_info. cbn [for_fold].
  unfold bind at 1. unfold bind at 1. unfold bind at 1.
  change (SessionGet _) with (SessionGet (pypi_url p)).
  rewrite (make_request_accepted world endpoint (SessionGet (pypi_url p)) _
             (Response r) w);
    [| exact Hep | unfold accepted; simpl; now apply Z.eqb_eq].
  cbn [is_None negb].
  unfold bind, try_except, lift, ret, save, logging_info, emit.
  cbn [py_json]. rewrite Hbody, Hinfo, Hdl, Hday, Hweek, Hmonth, Hsum, Hdescr.
  cbn -[pypi_url store Z.add Z.modulo Z.eqb].
  change ((0 + 1) mod 10 =? 0) with false.
  change (0 + 1) with 1.
  unfold advanced, with_pypi_details, set_readme, set_description,
    set_month_download_count, set_week_download_count, set_day_download_count.
  cbn -[pypi_url store].
  destruct (model p); cbn -[pypi_url store];
    rewrite <- !app_assoc; reflexivity.
Qed.

(** X19: a JSON body without the [info] key (or one that is no
    object) ends the batch with the exception of the lookup: the
    record is not saved and the records behind it are not fetched. *)
Theorem fetch_pypi_data_stops_at_missing_info
    p rest r w j e (s : state world) :
  endpoint (SessionGet (pypi_url p)) (net s) = (Gives (Response r), w) ->
  status_code r = 200 ->
  json_body r = Some j ->
  getitem j "info" = Raises e ->
  fetch_pypi_data endpoint (p :: rest) s =
  (Raises e,
   advanced w
     [Info (MsgFetchingPyPIData (Z.of_nat (List.length (p :: rest))));
      Call (SessionGet (pypi_url p))] s).
Proof.
  intros Hep H200 Hbody Hinfo.
  unfold fetch_pypi_data.
  rewrite bind_logging_info. cbn [for_fold].
  unfold bind at 1. unfold bind at 1. unfold bind at 1.
  change (SessionGet ("https://pypi.python.org/pypi/"
                      ++ replace nbsp "/" (replace space "/" (name p))
                      ++ "/json"))
    with (SessionGet (pypi_url p)).
  rewrite (make_request_accepted world endpoint (SessionGet (pypi_url p)) _
             (Response r) w);
    [| exact Hep | unfold accepted; simpl; now apply Z.eqb_eq].
  cbn [is_None negb].
  unfold bind at 1, try_except, bind at 1, lift at 1.
  cbn [py_json]. rewrite Hbody.
  unfold ret at 1. unfold bind at 1. unfold ret at 1.
  unfold bind at 1, lift at 1. rewrite Hinfo.
  now rewrite advanced_advanced.
Qed.

End PypiDataMore.

(** ** The list fetches and the table *)

Lemma add_name_found cls t n :
  find_by_name n t <> None -> add_name cls t n = t.
Proof.
  intros H. unfold add_name. rewrite find_or_create_name_only.
  destruct (find_by_name n t); [reflexivity | now elim H].
Qed.

Lemma add_name_fresh cls t n :
  find_by_name n t = None ->
  add_name cls t n = t ++ [new_package cls n JNull JNull].
Proof.
  intros H. unfold add_name. rewrite find_or_create_name_only.
  now rewrite H.
Qed.

Lemma find_by_name_app_found n t1 t2 :
  find_by_name n t1 <> None -> find_by_name n (t1 ++ t2) <> None.
Proof.
  induction t1 as [| q t1 IH]; simpl; [intros H; now elim H |].
  destruct (String.eqb (name q) n); [discriminate | exact IH].
Qed.

Lemma add_name_finds cls t n : find_by_name n (add_name cls t n) <> None.
Proof.
  destruct (find_by_name n t) as [q |] eqn:E.
  - rewrite add_name_found; rewrite E; discriminate.
  - rewrite (add_name_fresh _ _ _ E), (find_by_name_app_None _ _ _ E).
    simpl. rewrite String.eqb_refl. discriminate.
Qed.

Lemma add_name_extends cls t n : exists added, add_name cls t n = t ++ added.
Proof.
  destruct (find_by_name n t) as [q |] eqn:E.
  - exists []. rewrite add_name_found, app_nil_r; [reflexivity |].
    rewrite E. discriminate.
  - eexists. now apply add_name_fresh.
Qed.

Lemma add_names_extend cls names : forall t,
  exists added, fold_left (add_name cls) names t = t ++ added.
Proof.
  induction names as [| n names IH]; intros t; simpl.
  - exists []. now rewrite app_nil_r.
  - destruct (add_name_extends cls t n) as (a1 & ->).
    destruct (IH (t ++ a1)) as (a2 & ->).
    exists (a1 ++ a2). now rewrite app_assoc.
Qed.

Lemma add_names_keep_found cls names : forall t n,
  find_by_name n t <> None ->
  find_by_name n (fold_left (add_name cls) names t) <> None.
Proof.
  intros t n H. destruct (add_names_extend cls names t) as (added & ->).
  now apply find_by_name_app_found.
Qed.

Lemma add_names_find cls names : forall t n,
  In n names -> find_by_name n (fold_left (add_name cls) names t) <> None.
Proof.
  induction names as [| m names IH]; intros t n Hin; [contradiction |].
  simpl. destruct Hin as [-> | Hin].
  - apply add_names_keep_found, add_name_finds.
  - now apply IH.
Qed.

Lemma add_names_NoDup cls names : forall t,
  NoDup (map name t) -> NoDup (map name (fold_left (add_name cls) names t)).
Proof.
  induction names as [| n names IH]; intros t H; simpl; [exact H |].
  apply IH. unfold add_name.
  pose proof (find_or_create_NoDup cls n t H) as Hnd.
  destruct (find_or_create cls (name_only n) t) as [[q c] t'].
  exact Hnd.
Qed.

Lemma add_names_members cls names : forall t q,
  In q (fold_left (add_name cls) names t) ->
  In q t \/ (In (name q) names /\ q = new_package cls (name q) JNull JNull).
Proof.
  induction names as [| n names IH]; intros t q Hin; simpl in Hin; [now left |].
  destruct (IH _ _ Hin) as [Hq | [Hq ->]].
  - destruct (find_by_name n t) as [r |] eqn:E.
    + rewrite add_name_found in Hq by (rewrite E; discriminate). now left.
    + rewrite (add_name_fresh _ _ _ E) in Hq.
      apply in_app_or in Hq as [Hq | [<- | []]]; [now left |].
      right. split; [now left | reflexivity].
  - right. split; [now right | reflexivity].
Qed.

Lemma add_names_again cls names : forall t,
  (forall n, In n names -> find_by_name n t <> None) ->
  fold_left (add_name cls) names t = t.
Proof.
  induction names as [| n names IH]; intros t H; simpl; [reflexivity |].
  rewrite add_name_found by (apply H; now left).
  apply IH. intros m Hm. apply H. now right.
Qed.

Local Open Scope string_scope.

Lemma replace_nbsp_clean s : has_char nbsp (replace nbsp " " s) = false.
Proof.
  induction s as [| c s IH]; simpl; [reflexivity |].
  destruct (Ascii.eqb c nbsp) eqn:E; simpl; [exact IH |].
  now rewrite E, IH.
Qed.

Local Open Scope list_scope.
Local Open Scope Z_scope.

Lemma linked_names_clean rows n :
  In n (linked_names rows) -> has_char nbsp n = false.
Proof.
  unfold linked_names. intros H. apply in_flat_map in H as (row & _ & Hn).
  destruct row as [text |]; [| contradiction].
  destruct Hn as [<- | []]. apply replace_nbsp_clean.
Qed.

Section CatalogMore.

Variable world : Type.
Variable endpoint : request -> world -> reply * world.
Variable catalog_rows : string -> option (list (option string)).

(** What the catalog fetch leaves: the table is the old one with the
    linked names added by find-or-create, in the order of the rows. *)
Lemma fetch_pypi_package_list_table r w rows (s : state world) :
  endpoint (SessionGet index_url) (net s) = (Gives (Response r), w) ->
  status_code r = 200 ->
  catalog_rows (content r) = Some rows ->
  exists t,
    fetch_pypi_package_list endpoint catalog_rows s =
    (Returns tt,
     mkState w (trace s ++ t) (npm_table s)
       (fold_left (add_name PyPIPackage) (linked_names rows) (pypi_table s)))
    /\ calls_of t = [SessionGet index_url]
    /\ last t (Call (SessionGet index_url)) =
       Info (MsgDoneList (Z.of_nat (List.length (linked_names rows)))).
Proof.
  intros Hep H200 Hrows.
  unfold fetch_pypi_package_list.
  change (SessionGet "https://pypi.python.org/pypi?%3Aaction=index")
    with (SessionGet index_url).
  rewrite (bind_returns world _ _ _ _ _
             (make_request_accepted world endpoint _ s (Response r) w Hep
                ltac:(unfold accepted; simpl; now apply Z.eqb_eq))).
  unfold bind at 1. unfold lift at 1. cbn [py_content]. rewrite Hrows.
  rewrite bind_logging_info, advanced_advanced.
  match goal with
  | |- context [for_fold _ rows 0 ?b] => set (body := b)
  end.
  assert (Hloop : forall rs n w1 t1 tbl,
            exists t2,
              for_fold world rs n body
                (mkState w1 t1 (npm_table s) tbl) =
              (Returns (n + Z.of_nat (List.length (linked_names rs))),
               mkState w1 (t1 ++ t2) (npm_table s)
                 (fold_left (add_name PyPIPackage) (linked_names rs) tbl)) /\
              calls_of t2 = []).
  { induction rs as [| row rs IH]; intros n w1 t1 tbl.
    - exists []. cbn. now rewrite app_nil_r, Z.add_0_r.
    - cbn [for_fold].
      destruct row as [text |].
      + assert (Hrow : exists t2,
                  body (Some text) n (mkState w1 t1 (npm_table s) tbl) =
                  (Returns (n + 1),
                   mkState w1 (t1 ++ t2) (npm_table s)
                     (add_name PyPIPackage tbl (replace nbsp " " text))) /\
                  calls_of t2 = []).
        { unfold body. unfold bind at 1. unfold get_or_create at 1.
          cbn [table_of pypi_table with_table net trace npm_table].
          unfold add_name.
          destruct (find_or_create _ _ tbl) as [[q created] tbl'].
          cbn [snd]. unfold bind at 1.
          destruct ((n + 1) mod 10 =? 0).
          - exists [Info (MsgPackagesFetched (n + 1))]. split; reflexivity.
          - exists []. cbn. now rewrite app_nil_r. }
        destruct Hrow as (t2 & Hrow & Hc2).
        rewrite (bind_returns world _ _ _ _ _ Hrow).
        destruct (IH (n + 1) w1 (t1 ++ t2)
                    (add_name PyPIPackage tbl (replace nbsp " " text)))
          as (t3 & Hrun & Hc3).
        exists (t2 ++ t3). rewrite Hrun, app_assoc.
        cbn [linked_names flat_map app List.length fold_left].
        fold (linked_names rs).
        rewrite calls_of_app, Hc2, Hc3.
        split; [| reflexivity].
        replace (n + Z.of_nat (S (List.length (linked_names rs))))
          with (n + 1 + Z.of_nat (List.length (linked_names rs))) by lia.
        reflexivity.
      + unfold body at 1. rewrite bind_ret.
        destruct (IH n w1 t1 tbl) as (t3 & Hrun & Hc3).
        exists t3. now rewrite Hrun. }
  unfold advanced at 1. cbn [net trace npm_table pypi_table].
  destruct (Hloop rows 0 w
              (trace s ++ [Call (SessionGet index_url)] ++
               [Info (MsgPyPICount (Z.of_nat (List.length rows) - 1))])
              (pypi_table s))
    as (t2 & Hrun & Hc2).
  rewrite (bind_returns world _ _ _ _ _ Hrun).
  unfold logging_info, emit. cbn [net trace npm_table pypi_table].
  exists (([Call (SessionGet index_url)] ++
           [Info (MsgPyPICount (Z.of_nat (List.length rows) - 1))] ++ t2)
          ++ [Info (MsgDoneList
                      (0 + Z.of_nat (List.length (linked_names rows))))]).
  split; [| split].
  - rewrite <- !app_assoc. reflexivity.
  - rewrite !calls_of_app, Hc2. reflexivity.
  - apply last_last.
Qed.

(** X20: a catalog page with status 200 and a table: after the fetch
    every linked row's name, its non-breaking spaces made spaces, is in
    the table; the records that were there are still there, unchanged
    and in front; a record that was not there has no non-breaking space
    in its name; names that were unique stay unique; the other table
    is as it was and the network was asked once. *)
Theorem fetch_pypi_package_list_fills_table r w rows (s : state world) :
  endpoint (SessionGet index_url) (net s) = (Gives (Response r), w) ->
  status_code r = 200 ->
  catalog_rows (content r) = Some rows ->
  exists s',
    fetch_pypi_package_list endpoint catalog_rows s = (Returns tt, s') /\
    (forall text, In (Some text) rows ->
       find_by_name (replace nbsp " " text) (pypi_table s') <> None) /\
    (exists added, pypi_table s' = pypi_table s ++ added) /\
    (forall q, In q (pypi_table s') ->
       In q (pypi_table s) \/ has_char nbsp (name q) = false) /\
    (NoDup (map name (pypi_table s)) -> NoDup (map name (pypi_table s'))) /\
    npm_table s' = npm_table s /\
    calls_of (trace s') = calls_of (trace s) ++ [SessionGet index_url].
Proof.
  intros Hep H200 Hrows.
  destruct (fetch_pypi_package_list_table r w rows s Hep H200 Hrows)
    as (t & Hrun & Hcalls & _).
  eexists. split; [exact Hrun |].
  cbn [pypi_table npm_table trace].
  split_all.
  - intros text Hin. apply add_names_find.
    unfold linked_names. apply in_flat_map.
    exists (Some text). split; [exact Hin | now left].
  - apply add_names_extend.
  - intros q Hq. apply add_names_members in Hq as [Hq | [Hq _]];
      [now left | right].
    now apply (linked_names_clean rows).
  - apply add_names_NoDup.
  - reflexivity.
  - now rewrite calls_of_app, Hcalls.
Qed.

(** X21: the catalog fetch run a second time over the same rows adds
    nothing: the table is as the first run left it. *)
Theorem fetch_pypi_package_list_again_adds_nothing
    r1 w1 r2 w2 rows (s s1 : state world) :
  endpoint (SessionGet index_url) (net s) = (Gives (Response r1), w1) ->
  status_code r1 = 200 ->
  catalog_rows (content r1) = Some rows ->
  fetch_pypi_package_list endpoint catalog_rows s = (Returns tt, s1) ->
  endpoint (SessionGet index_url) (net s1) = (Gives (Response r2), w2) ->
  status_code r2 = 200 ->
  catalog_rows (content r2) = Some rows ->
  exists s2,
    fetch_pypi_package_list endpoint catalog_rows s1 = (Returns tt, s2) /\
    pypi_table s2 = pypi_table s1 /\
    npm_table s2 = npm_table s1.
Proof.
  intros Hep1 H1 Hrows1 Hrun1 Hep2 H2 Hrows2.
  destruct (fetch_pypi_package_list_table r1 w1 rows s Hep1 H1 Hrows1)
    as (t1 & Hrun1' & _).
  rewrite Hrun1 in Hrun1'. injection Hrun1' as ->.
  destruct (fetch_pypi_package_list_table r2 w2 rows _ Hep2 H2 Hrows2)
    as (t2 & Hrun2 & _).
  eexists. split; [exact Hrun2 |].
  cbn [pypi_table npm_table]. split; [| reflexivity].
  apply add_names_again. intros n Hn. now apply add_names_find.
Qed.

End CatalogMore.

Section NpmListMore.

Variable world : Type.
Variable endpoint : request -> world -> reply * world.

(** The loop of [fetch_npm_package_list] over entries that each have a
    string under [id]. *)
Lemma npm_rows_loop items : forall names w1 t1 tbl pypi,
  Forall2 (fun item n => getitem item "id" = Returns (JStr n)) items names ->
  for_each world items
    (fun p =>
       bind world (lift world (getitem p "id"))
         (fun id =>
            bind world (name_key world id)
              (fun key =>
                 bind world
                   (get_or_create NPMPackage (name_only key))
                   (fun _ => ret tt))))
    (mkState w1 t1 tbl pypi) =
  (Returns tt,
   mkState w1 t1 (fold_left (add_name NPMPackage) names tbl) pypi).
Proof.
  induction items as [| item items IH]; intros names w1 t1 tbl pypi Hall.
  - inversion Hall. reflexivity.
  - inversion Hall as [| ? n ? names' Hid Hrest]; subst.
    cbn [for_each fold_left].
    unfold bind at 1. unfold bind at 1. unfold lift at 1. rewrite Hid.
    unfold bind at 1. unfold name_key at 1, ret at 1.
    unfold bind at 1. unfold get_or_create at 1.
    cbn [table_of npm_table with_table net trace pypi_table].
    unfold add_name.
    destruct (find_or_create NPMPackage (name_only n) tbl)
      as [[q created] tbl'].
    cbn [snd]. unfold ret at 1.
    apply IH. exact Hrest.
Qed.

(** X22: a registry listing with status 200 whose rows each carry a
    string [id]: after the fetch every id names a record; the records
    that were there stay in front, unchanged; unique names stay
    unique; a second listing of the same ids would add nothing. *)
Theorem fetch_npm_package_list_fills_table
    r w body items names (s : state world) :
  endpoint (SessionGet registry_url) (net s) = (Gives (Response r), w) ->
  status_code r = 200 ->
  json_body r = Some body ->
  getitem body "rows" = Returns (JList items) ->
  Forall2 (fun item n => getitem item "id" = Returns (JStr n)) items names ->
  exists tbl,
    fetch_npm_package_list endpoint s =
      (Returns tt,
       mkState w (trace s ++ [Call (SessionGet registry_url)]) tbl
         (pypi_table s)) /\
    (forall n, In n names -> find_by_name n tbl <> None) /\
    (exists added, tbl = npm_table s ++ added) /\
    (NoDup (map name (npm_table s)) -> NoDup (map name tbl)) /\
    fold_left (add_name NPMPackage) names tbl = tbl.
Proof.
  intros Hep H200 Hbody Hrows Hids.
  exists (fold_left (add_name NPMPackage) names (npm_table s)).
  split_all.
  - unfold fetch_npm_package_list.
    change (SessionGet "https://skimdb.npmjs.com/registry/_all_docs")
      with (SessionGet registry_url).
    rewrite (bind_returns world _ _ _ _ _
               (make_request_accepted world endpoint _ s (Response r) w Hep
                  ltac:(unfold accepted; simpl; now apply Z.eqb_eq))).
    cbn [is_None negb].
    unfold bind at 1. unfold lift at 1. cbn [py_json]. rewrite Hbody.
    unfold bind at 1. unfold lift at 1. rewrite Hrows.
    unfold bind at 1. unfold lift at 1. cbn [json_iter].
    unfold advanced.
    apply (npm_rows_loop items names); exact Hids.
  - intros n Hn. now apply add_names_find.
  - apply add_names_extend.
  - apply add_names_NoDup.
  - apply add_names_again. intros n Hn. now apply add_names_find.
Qed.

(** X23: the registry listing is not guarded against a body that is
    no JSON or has no [rows]: [ValueError] or the lookup's exception
    leaves the fetch, and no record is created. *)
Theorem fetch_npm_package_list_raises_on_bad_body r w e (s : state world) :
  endpoint (SessionGet registry_url) (net s) = (Gives (Response r), w) ->
  status_code r = 200 ->
  match json_body r with
  | None => e = ValueError
  | Some body => getitem body "rows" = Raises e
  end ->
  fetch_npm_package_list endpoint s =
  (Raises e, advanced w [Call (SessionGet registry_url)] s).
Proof.
  intros Hep H200 Hbad.
  unfold fetch_npm_package_list.
  change (SessionGet "https://skimdb.npmjs.com/registry/_all_docs")
    with (SessionGet registry_url).
  rewrite (bind_returns world _ _ _ _ _
             (make_request_accepted world endpoint _ s (Response r) w Hep
                ltac:(unfold accepted; simpl; now apply Z.eqb_eq))).
  cbn [is_None negb].
  unfold bind at 1. unfold lift at 1. cbn [py_json].
  destruct (json_body r) as [body |]; [| now subst].
  unfold bind at 1. unfold lift at 1. now rewrite Hbad.
Qed.

(** X24: a first page without items ends the paginated name fetch at
    once, whatever the target count: one request, no record, and no
    lookup of the unbound model name. *)
Theorem fetch_packagenames_stops_at_empty_page
    fuel package_count w (s : state world) :
  endpoint (SearchGet "" "NPM" 0) (net s) = (Gives (Decoded (JList [])), w) ->
  fetch_packagenames_from_libraryio endpoint (S fuel) package_count s =
  (Returns tt,
   advanced w [Info (MsgFetchingPage 0); Call (SearchGet "" "NPM" 0)] s).
Proof.
  intros Hep.
  unfold fetch_packagenames_from_libraryio. cbn [fetch_packagenames_loop].
  rewrite bind_logging_info.
  rewrite (bind_returns world _ _ _ _ _
             (make_request_accepted world endpoint (SearchGet "" "NPM" 0)
                (advanced (net s) [Info (MsgFetchingPage 0)] s)
                (Decoded (JList [])) w Hep eq_refl)).
  cbn. unfold advanced. cbn. now rewrite <- app_assoc.
Qed.

End NpmListMore.

(** The fetcher properties on scripted networks. *)

Lemma fetch_github_readmes_passes_over_unhosted_witness :
  fetch_github_readmes play [unhosted_package; unhosted_package]
    (start [] [unhosted_package] []) =
  (Returns tt,
   mkState []
     [Info (MsgNotFetchingReadme "elsewhere");
      Info (MsgNotFetchingReadme "elsewhere")]
     [unhosted_package] []).
Proof.
  apply (fetch_github_readmes_passes_over_unhosted script play
           [unhosted_package; unhosted_package]
           (start [] [unhosted_package] [])).
  repeat constructor.
Defined.

Lemma fetch_github_readmes_goes_on_after_no_result_witness :
  fetch_github_readmes play [hosted_package; unhosted_package]
    (start [Throws HttpNotFoundError] [hosted_package] []) =
  fetch_github_readmes play [unhosted_package]
    (mkState []
       [Info (MsgFetchingReadme "bar"); Call (ReadmeGet "foo" "bar");
        Warn (MsgError "Not Found" (ReadmeGet "foo" "bar"))]
       [hosted_package] []).
Proof.
  apply (fetch_github_readmes_goes_on_after_no_result script play
           hosted_package [unhosted_package] "foo" "bar"
           (start [Throws HttpNotFoundError] [hosted_package] [])).
  - reflexivity.
  - reflexivity.
Defined.

Lemma fetch_github_readmes_saves_and_goes_on_witness :
  fetch_github_readmes play [hosted_package; unhosted_package]
    (start [Gives (Decoded (JObj [("content", JStr "SGVsbG8h")]))]
       [unhosted_package; hosted_package] []) =
  fetch_github_readmes play [unhosted_package]
    (mkState []
       [Info (MsgFetchingReadme "bar"); Call (ReadmeGet "foo" "bar")]
       [unhosted_package;
        mkPackage NPMPackage "bar" (JStr "https://github.com/foo/bar") JNull
          (JStr "Hello!") JNull JNull JNull JNull JNull JNull] []) /\
  find_by_name "bar"
    [unhosted_package;
     mkPackage NPMPackage "bar" (JStr "https://github.com/foo/bar") JNull
       (JStr "Hello!") JNull JNull JNull JNull JNull JNull] =
  Some
    (mkPackage NPMPackage "bar" (JStr "https://github.com/foo/bar") JNull
       (JStr "Hello!") JNull JNull JNull JNull JNull JNull).
Proof.
  destruct (fetch_github_readmes_saves_and_goes_on script play
              hosted_package [unhosted_package] "foo" "bar"
              [("content", JStr "SGVsbG8h")] "SGVsbG8h" "Hello!" []
              (start [Gives (Decoded (JObj [("content", JStr "SGVsbG8h")]))]
                 [unhosted_package; hosted_package] [])
              eq_refl eq_refl eq_refl eq_refl)
    as (s1 & Hrun & Hs1 & Hfound).
  subst s1. split.
  - exact Hrun.
  - exact (Hfound hosted_package eq_refl).
Defined.

Lemma fetch_github_readmes_stops_at_short_url_witness :
  fetch_github_readmes play [ownerless_package; hosted_package]
    (start [Gives (Decoded (JObj [("content", JStr "SGVsbG8h")]))]
       [ownerless_package; hosted_package] []) =
  (Raises ValueError,
   start [Gives (Decoded (JObj [("content", JStr "SGVsbG8h")]))]
     [ownerless_package; hosted_package] []).
Proof.
  apply (fetch_github_readmes_stops_at_short_url script play
           ownerless_package [hosted_package] "https://github.com/foo").
  - reflexivity.
  - reflexivity.
  - simpl. lia.
Defined.

Lemma fetch_github_readmes_stops_at_bad_content_witness :
  fetch_github_readmes play [hosted_package; unhosted_package]
    (start [Gives (Decoded (JObj [("message", JStr "Not Found")]))]
       [hosted_package] []) =
  (Raises KeyError,
   mkState []
     [Info (MsgFetchingReadme "bar"); Call (ReadmeGet "foo" "bar")]
     [hosted_package] []).
Proof.
  apply (fetch_github_readmes_stops_at_bad_content script play
           hosted_package [unhosted_package] "foo" "bar"
           [("message", JStr "Not Found")] KeyError []
           (start [Gives (Decoded (JObj [("message", JStr "Not Found")]))]
              [hosted_package] []));
    reflexivity.
Defined.

Lemma fetch_pypi_data_runs_through_refusals_witness :
  exists w t,
    fetch_pypi_data refuse [first_package; second_package]
      (mkState tt [] [] [first_package; second_package]) =
    (Returns tt,
     advanced w t (mkState tt [] [] [first_package; second_package])) /\
    count_calls t = 2%nat /\
    count_sleeps t = O /\
    last t (Info MsgNoJSON) = Info (MsgDoneData 0).
Proof.
  apply (fetch_pypi_data_runs_through_refusals unit refuse
           [first_package; second_package]
           (mkState tt [] [] [first_package; second_package])).
  intros req w. exists (mkResponse 503 "" None), w.
  split; [reflexivity | discriminate].
Defined.

Lemma fetch_pypi_data_saves_details_witness :
  fetch_pypi_data play [first_package]
    (start [Gives (Response first_json)] [] [first_package; second_package]) =
  (Returns tt,
   mkState []
     [Info (MsgFetchingPyPIData 1);
      Call (SessionGet "https://pypi.python.org/pypi/first/json");
      Info (MsgDoneData 1)]
     []
     [mkPackage PyPIPackage "first" JNull JNull
        (JStr "readme of first") (JStr "summary of first")
        (JNum 1) (JNum 7) (JNum 30) JNull JNull;
      second_package]).
Proof.
  apply (fetch_pypi_data_saves_details script play first_package first_json []
           (pypi_json "summary of first" "readme of first" 1 7 30)
           (JObj [("downloads",
                   JObj [("last_day", JNum 1); ("last_week", JNum 7);
                         ("last_month", JNum 30)]);
                  ("summary", JStr "summary of first");
                  ("description", JStr "readme of first")])
           (JObj [("last_day", JNum 1); ("last_week", JNum 7);
                  ("last_month", JNum 30)])
           (JNum 1) (JNum 7) (JNum 30)
           (JStr "summary of first") (JStr "readme of first")
           (start [Gives (Response first_json)] []
              [first_package; second_package]));
    reflexivity.
Defined.

Lemma fetch_pypi_data_stops_at_missing_info_witness :
  fetch_pypi_data play [first_package; second_package]
    (start [Gives (Response (mkResponse 200 "{}" (Some (JObj []))));
            Gives (Response first_json)]
       [] [first_package; second_package]) =
  (Raises KeyError,
   mkState [Gives (Response first_json)]
     [Info (MsgFetchingPyPIData 2);
      Call (SessionGet "https://pypi.python.org/pypi/first/json")]
     [] [first_package; second_package]).
Proof.
  apply (fetch_pypi_data_stops_at_missing_info script play
           first_package [second_package]
           (mkResponse 200 "{}" (Some (JObj [])))
           [Gives (Response first_json)] (JObj []) KeyError
           (start [Gives (Response (mkResponse 200 "{}" (Some (JObj []))));
                   Gives (Response first_json)]
              [] [first_package; second_package]));
    reflexivity.
Defined.

Lemma fetch_pypi_package_list_fills_table_witness :
  exists s',
    fetch_pypi_package_list play sample_catalog
      (start [Gives (Response catalog_page)] []
         [new_package PyPIPackage "c" JNull JNull]) = (Returns tt, s') /\
    find_by_name "a b" (pypi_table s') <> None /\
    find_by_name "c" (pypi_table s') <> None.
Proof.
  destruct (fetch_pypi_package_list_fills_table script play sample_catalog
              catalog_page []
              [None; Some (String "a" (String nbsp "b")); Some "c"]
              (start [Gives (Response catalog_page)] []
                 [new_package PyPIPackage "c" JNull JNull])
              eq_refl eq_refl eq_refl)
    as (s' & Hrun & Hfound & _).
  exists s'. split; [exact Hrun |]. split.
  - apply (Hfound (String "a" (String nbsp "b"))). simpl. auto.
  - apply (Hfound "c"). simpl. auto.
Defined.

Lemma fetch_pypi_package_list_again_adds_nothing_witness :
  exists s2,
    fetch_pypi_package_list play sample_catalog
      (mkState [Gives (Response catalog_page)]
         [Call (SessionGet index_url); Info (MsgPyPICount 2);
          Info (MsgDoneList 2)]
         []
         [new_package PyPIPackage "a b" JNull JNull;
          new_package PyPIPackage "c" JNull JNull]) = (Returns tt, s2) /\
    pypi_table s2 = [new_package PyPIPackage "a b" JNull JNull;
                     new_package PyPIPackage "c" JNull JNull] /\
    npm_table s2 = [].
Proof.
  apply (fetch_pypi_package_list_again_adds_nothing script play sample_catalog
           catalog_page [Gives (Response catalog_page)] catalog_page []
           [None; Some (String "a" (String nbsp "b")); Some "c"]
           (start [Gives (Response catalog_page); Gives (Response catalog_page)]
              [] []));
    reflexivity.
Defined.

Lemma fetch_npm_package_list_fills_table_witness :
  exists tbl,
    fetch_npm_package_list play
      (start [Gives (Response registry_listing)]
         [new_package NPMPackage "lodash" JNull JNull] []) =
      (Returns tt,
       mkState [] [Call (SessionGet registry_url)] tbl []) /\
    map name tbl = ["lodash"; "left-pad"].
Proof.
  destruct (fetch_npm_package_list_fills_table script play registry_listing []
              (JObj [("rows", JList [JObj [("id", JStr "left-pad")];
                                     JObj [("id", JStr "lodash")];
                                     JObj [("id", JStr "left-pad")]])])
              [JObj [("id", JStr "left-pad")]; JObj [("id", JStr "lodash")];
               JObj [("id", JStr "left-pad")]]
              ["left-pad"; "lodash"; "left-pad"]
              (start [Gives (Response registry_listing)]
                 [new_package NPMPackage "lodash" JNull JNull] []))
    as (tbl & Hrun & _).
  - reflexivity.
  - reflexivity.
  - reflexivity.
  - reflexivity.
  - repeat constructor.
  - exists tbl. split; [exact Hrun |].
    vm_compute in Hrun. now inversion Hrun.
Defined.

Lemma fetch_npm_package_list_raises_on_bad_body_witness :
  fetch_npm_package_list play (start [Gives (Response not_json)] [] []) =
  (Raises ValueError, mkState [] [Call (SessionGet registry_url)] [] []).
Proof.
  apply (fetch_npm_package_list_raises_on_bad_body script play not_json []
           ValueError (start [Gives (Response not_json)] [] []));
    reflexivity.
Defined.

Lemma fetch_packagenames_stops_at_empty_page_witness :
  fetch_packagenames_from_libraryio play 1 (-1)
    (start [Gives (Decoded (JList []))] [] []) =
  (Returns tt,
   mkState [] [Info (MsgFetchingPage 0); Call (SearchGet "" "NPM" 0)] [] []).
Proof.
  apply (fetch_packagenames_stops_at_empty_page script play O (-1) []
           (start [Gives (Decoded (JList []))] [] [])).
  reflexivity.
Defined.
